(** * The Azure Repos backend of the VCS client (vcsclient/azurerepos.go)

    A shallow embedding of [AzureReposClient] and of its methods.  The
    backend is glue code over collaborators that live outside the file: the
    Azure DevOps SDK, the HTTP transport, the process working directory and
    the [vcsutils] helper package.  The collaborators are parameters of the
    development; the methods are embedded statement by statement in a small
    monad that threads the observable world and can panic, as Go does on a
    nil dereference. *)

From stdpp Require Import base strings gmap list pretty.

Open Scope Z_scope.

(* ===================================================================== *)
(** ** Go values *)
(* ===================================================================== *)

(** Where an error value was created.  The backend itself only creates
    message errors ([errors.New], [fmt.Errorf] without a wrapping verb);
    every other error value is made by a collaborator. *)
Inductive Origin : Type :=
| FromSdk        (* azuredevops / azuredevops/git *)
| FromTransport  (* net/http *)
| FromOs         (* os *)
| FromIo         (* io, response bodies *)
| FromArchive.   (* vcsutils.Unzip *)

(** A non-nil value of Go's [error] interface.  A possibly nil [error] is
    an [option error]. *)
Inductive error : Type :=
| errorString (s : string)
| foreignError (origin : Origin) (detail : string).

Definition errors_New (s : string) : error := errorString s.

(** An error value made by the provider's SDK or by the transport under it,
    as opposed to one made by this package. *)
Definition isProviderNative (e : error) : bool :=
  match e with
  | errorString _ => false
  | foreignError FromSdk _ | foreignError FromTransport _ => true
  | foreignError _ _ => false
  end.

(** [time.Time], as far as the backend looks at it: the instant in seconds
    since the epoch, read by [Unix()], and the nanoseconds within it. *)
Record Time : Type := { Unix : Z; Nanosecond : Z }.

(** [context.Context]: an opaque token handed on to the collaborators. *)
Record Context : Type := { ctxId : nat }.

(** Zero values, [T{}] and [var x T]. *)
Class Zero (T : Type) : Type := zero : T.
Arguments zero {T _}.

#[global] Instance string_Zero : Zero string := EmptyString.
#[global] Instance Z_Zero : Zero Z := 0.
#[global] Instance bool_Zero : Zero bool := false.
(* a nil slice; the backend never compares a slice with nil, so nil and
   empty slices are both the empty list *)
#[global] Instance list_Zero {A : Type} : Zero (list A) := [].
(* a nil pointer *)
#[global] Instance option_Zero {A : Type} : Zero (option A) := None.
#[global] Instance Time_Zero : Zero Time := {| Unix := 0; Nanosecond := 0 |}.

(* ===================================================================== *)
(** ** Types of the Azure DevOps SDK (the fields the backend touches)

    Every field of the SDK's structures is a pointer; [None] is nil. *)
(* ===================================================================== *)

Record Connection : Type := {
  BaseUrl : string;
  AuthorizationString : string
}.

Record ResourceAreaInfo : Type := { Area_Name : option string }.
Record GitRepository : Type := { Repo_Name : option string }.
Record GitBranchStats : Type := { Branch_Name : option string }.
Record IdentityRef : Type := { DisplayName : option string }.

Record Comment : Type := {
  Comment_Author : option IdentityRef;
  Comment_Content : option string;
  Comment_Id : option Z
}.

(** [PublishedDate] is a [*azuredevops.Time], a structure around one
    [time.Time]. *)
Record GitPullRequestCommentThread : Type := {
  Thread_Comments : option (list Comment);
  Thread_Id : option Z;
  Thread_PublishedDate : option Time
}.

Record GitPullRequest : Type := {
  PullRequestId : option Z;
  SourceRefName : option string;
  TargetRefName : option string;
  PR_Title : option string;
  PR_Description : option string
}.

Record GitUserDate : Type := {
  User_Date : option Time;
  User_Name : option string
}.

Record GitCommitRef : Type := {
  CommitId : option string;
  Commit_Author : option GitUserDate;
  Commit_Committer : option GitUserDate;
  Commit_Url : option string;
  Commit_Comment : option string;
  Commit_Parents : option (list string)
}.

(** Argument structures.  The backend fills each pointer field with the
    address of a local, so the fields are plain values here. *)
Record GetRepositoriesArgs : Type := { GR_Project : string }.
Record GetBranchesArgs : Type := { GB_Project : string; GB_RepositoryId : string }.
Record CreatePullRequestArgs : Type := {
  CPR_PullRequest : GitPullRequest;
  CPR_RepositoryId : string;
  CPR_Project : string
}.
Inductive CommentThreadStatus : Type := ThreadActive.
Record CreateThreadArgs : Type := {
  CT_Comments : list Comment;
  CT_Status : CommentThreadStatus;
  CT_RepositoryId : string;
  CT_PullRequestId : Z;
  CT_Project : string
}.
Record GetThreadsArgs : Type := {
  GT_RepositoryId : string;
  GT_PullRequestId : Z;
  GT_Project : string
}.
Inductive PullRequestStatus : Type := PullRequestActive.
Record GetPullRequestsArgs : Type := {
  GPR_RepositoryId : string;
  GPR_Project : string;
  GPR_Status : PullRequestStatus
}.
Inductive GitVersionType : Type := VersionTypeBranch.
Record GetCommitsArgs : Type := {
  GC_RepositoryId : string;
  GC_Project : string;
  GC_Version : string;
  GC_VersionType : GitVersionType
}.

(* ===================================================================== *)
(** ** Types of net/http *)
(* ===================================================================== *)

(** [http.Header.Add] appends the value under the key (the canonical
    spelling of keys is left to the transport). *)
Definition Header_Add (key val : string) (h : gmap string (list string))
  : gmap string (list string) :=
  <[key := default [] (h !! key) ++ [val]]> h.

Record Request : Type := {
  Req_Method : string;
  Req_URL : string;
  Req_Header : gmap string (list string)
}.

(** A response body is a handle: reading and closing it are the
    transport's business. *)
Record ReadCloser : Type := { bodyId : nat }.

Record Response : Type := {
  StatusCode : Z;
  Body : ReadCloser
}.

(* ===================================================================== *)
(** ** The result types of the vcsclient package *)
(* ===================================================================== *)

(** Modelled from the spec: the declarations of [VcsInfo], [CommentInfo],
    [CommitInfo], [BranchInfo], [PullRequestInfo], [RepositoryInfo],
    [LabelInfo], [Permission], [CommitStatus] and [vcsutils.WebhookEvent]
    are not in azurerepos.go.  The records below carry the fields the file
    reads or writes, and for the types it only names, the fields the data
    model lists for them. *)
Record VcsInfo : Type := {
  APIEndpoint : string;
  Token : string;
  Project : string
}.

Record CommentInfo : Type := {
  ID : Z;
  Content : string;
  Created : Time
}.

Record CommitInfo : Type := {
  Hash : string;
  AuthorName : string;
  CommitterName : string;
  Url : string;
  Timestamp : Z;
  Message : string;
  ParentHashes : list string
}.

Record BranchInfo : Type := { Name : string; Repository : string }.

Record PullRequestInfo : Type := {
  PR_ID : Z;
  Source : BranchInfo;
  Target : BranchInfo
}.

Record RepositoryInfo : Type := {
  Repo_CloneHTTP : string;
  Repo_CloneSSH : string
}.

Record LabelInfo : Type := {
  Label_Name : string;
  Label_Description : string;
  Label_Color : string
}.

Inductive Permission : Type := Read | ReadWrite.
Inductive CommitStatus : Type := Pass | Fail | Error | InProgress.
Record WebhookEvent : Type := { eventName : string }.

#[global] Instance CommitInfo_Zero : Zero CommitInfo :=
  {| Hash := zero; AuthorName := zero; CommitterName := zero; Url := zero;
     Timestamp := zero; Message := zero; ParentHashes := zero |}.
#[global] Instance RepositoryInfo_Zero : Zero RepositoryInfo :=
  {| Repo_CloneHTTP := zero; Repo_CloneSSH := zero |}.

(* ===================================================================== *)
(** ** The observable world and the monad of Go code *)
(* ===================================================================== *)

Inductive LogLevel : Type := Debug | Info.

(** What the backend does to the outside, in the order it does it. *)
Inductive Event : Type :=
| EvLog (level : LogLevel) (args : list string)
| EvNewClient (conn : Connection)
| EvGetResourceAreas (baseUrl : string)
| EvGetRepositories (args : GetRepositoriesArgs)
| EvGetBranches (args : GetBranchesArgs)
| EvCreatePullRequest (args : CreatePullRequestArgs)
| EvCreateThread (args : CreateThreadArgs)
| EvGetThreads (args : GetThreadsArgs)
| EvGetPullRequests (args : GetPullRequestsArgs)
| EvGetCommits (args : GetCommitsArgs)
| EvGetwd
| EvChdir (path : string)
| EvHttpDo (req : Request)
| EvReadAll (body : ReadCloser)
| EvClose (body : ReadCloser)
| EvUnzip (content : list Z) (path : string).

(** The caller-visible state: the working directory of the process and the
    history of what was asked of the collaborators. *)
Record World : Type := {
  cwd : string;
  trace : list Event
}.

Definition record_event (e : Event) (w : World) : World :=
  {| cwd := cwd w; trace := trace w ++ [e] |}.

Definition set_cwd (path : string) (w : World) : World :=
  {| cwd := path; trace := trace w |}.

(** A call either returns or panics. *)
Inductive Outcome (A : Type) : Type :=
| Returned (a : A)
| Panicked (reason : string).
Arguments Returned {A} a.
Arguments Panicked {A} reason.

Definition Go (A : Type) : Type := World -> Outcome A * World.

#[global] Instance Go_ret : MRet Go := fun A a w => (Returned a, w).

#[global] Instance Go_bind : MBind Go := fun A B k m w =>
  match m w with
  | (Returned a, w') => k a w'
  | (Panicked r, w') => (Panicked r, w')
  end.

Definition panic {A : Type} (reason : string) : Go A :=
  fun w => (Panicked reason, w).

Definition nilDereference : string :=
  "runtime error: invalid memory address or nil pointer dereference".

(** [*p], [p.f] and a method call on a nil interface. *)
Definition deref {A : Type} (p : option A) : Go A :=
  match p with
  | Some a => mret a
  | None => panic nilDereference
  end.

(** A call to a collaborator: the call is recorded, the answer is the
    collaborator's, and may depend on everything that happened before. *)
Definition extern {A : Type} (e : Event) (answer : World -> A) : Go A :=
  fun w => (Returned (answer w), record_event e w).

Definition emit (e : Event) : Go unit :=
  fun w => (Returned tt, record_event e w).

(** What a caller sees of a call made in world [w]. *)
Definition outcome {A : Type} (m : Go A) (w : World) : Outcome A := fst (m w).
Definition world_after {A : Type} (m : Go A) (w : World) : World := snd (m w).

(** [defer func() { e := cleanup(); if err == nil { err = e } }()] around
    the rest of a function whose named result is [err].  The deferred call
    runs when the rest returns and also when it panics; in the second case
    the panic goes on after it (a panic of the deferred call itself takes
    over), and the assignment to [err] is not observed. *)
Definition defer (cleanup : Go (option error)) (rest : Go (option error))
  : Go (option error) :=
  fun w =>
    match rest w with
    | (Returned err, w1) =>
        match cleanup w1 with
        | (Returned e, w2) =>
            (Returned (match err with None => e | Some _ => err end), w2)
        | (Panicked r, w2) => (Panicked r, w2)
        end
    | (Panicked r, w1) =>
        match cleanup w1 with
        | (Returned _, w2) => (Panicked r, w2)
        | (Panicked r', w2) => (Panicked r', w2)
        end
    end.

(** [for _, x := range xs { ... }] over a loop state [S]. *)
Fixpoint for_each {A S : Type} (xs : list A) (body : A -> S -> Go S) (s : S)
  : Go S :=
  match xs with
  | [] => mret s
  | x :: rest => s' ← body x s; for_each rest body s'
  end.

(** [for _, x := range xs { ... }] over a loop state [S]; the body either
    goes on with a new state or returns [R] from the enclosing function. *)
Fixpoint for_range {A S R : Type} (xs : list A) (body : A -> S -> Go (S + R))
  (s : S) : Go (S + R) :=
  match xs with
  | [] => mret (inl s)
  | x :: rest =>
      r ← body x s;
      match r with
      | inl s' => for_range rest body s'
      | inr res => mret (inr res)
      end
  end.

(* ===================================================================== *)
(** ** The collaborators *)
(* ===================================================================== *)

(** The interface [git.Client] of the SDK: the methods the backend calls.
    A Go call returning a pointer and an error answers a pair, as in Go; nothing in
    the types ties one component to the other. *)
Record git_Client : Type := {
  git_GetRepositories : Context -> GetRepositoriesArgs -> World ->
                    option (list GitRepository) * option error;
  git_GetBranches : Context -> GetBranchesArgs -> World ->
                option (list GitBranchStats) * option error;
  git_CreatePullRequest : Context -> CreatePullRequestArgs -> World ->
                       option GitPullRequest * option error;
  git_CreateThread : Context -> CreateThreadArgs -> World ->
                 option GitPullRequestCommentThread * option error;
  git_GetThreads : Context -> GetThreadsArgs -> World ->
               option (list GitPullRequestCommentThread) * option error;
  git_GetPullRequests : Context -> GetPullRequestsArgs -> World ->
                    option (list GitPullRequest) * option error;
  git_GetCommits : Context -> GetCommitsArgs -> World ->
               option (list GitCommitRef) * option error
}.

(** The SDK's constructors, the transport, and the process. *)
Record Env : Type := {
  NewPatConnection : string -> string -> Connection;
  git_NewClient : Context -> Connection -> World ->
                  option git_Client * option error;
  GetResourceAreas : Context -> Connection -> World ->
                     option (list ResourceAreaInfo) * option error;
  Getwd_error : World -> option error;
  Chdir_error : string -> World -> option error;
  http_NewRequestWithContext : Context -> string -> string ->
                               option Request * option error;
  httpClient_Do : Request -> World -> option Response * option error;
  io_ReadAll : ReadCloser -> World -> list Z * option error;
  Body_Close : ReadCloser -> World -> option error
}.

(** The package [vcsutils] of the repository, whose sources are not part of
    azurerepos.go: it is a parameter, and nothing is assumed of it. *)
Record vcsutils : Type := {
  AddBranchPrefix : string -> string;
  DefaultIfNotNil : forall T : Type, Zero T -> option T -> T;
  Unzip : list Z -> string -> World -> option error
}.
Arguments DefaultIfNotNil _ {T _} _.

(** [os.Getwd]: the working directory, or the empty string and an error. *)
Definition os_Getwd (E : Env) : Go (string * option error) :=
  fun w =>
    match Getwd_error E w with
    | None => (Returned (cwd w, None), record_event EvGetwd w)
    | Some e => (Returned (EmptyString, Some e), record_event EvGetwd w)
    end.

(** [os.Chdir]: changes the working directory unless it fails. *)
Definition os_Chdir (E : Env) (path : string) : Go (option error) :=
  fun w =>
    match Chdir_error E path w with
    | None => (Returned None, set_cwd path (record_event (EvChdir path) w))
    | Some e => (Returned (Some e), record_event (EvChdir path) w)
    end.

(** [strings.Builder.WriteString]: appends, and "always returns a nil
    error". *)
Definition WriteString (builder s : string) : string * option error :=
  (builder +:+ s, None).

(* ===================================================================== *)
(** ** The client *)
(* ===================================================================== *)

Record AzureReposClient : Type := {
  vcsInfo : VcsInfo;
  connectionDetails : option Connection
}.

Definition logger_Debug (args : list string) : Go unit := emit (EvLog Debug args).
Definition logger_Info (args : list string) : Go unit := emit (EvLog Info args).

Section Backend.

Context (U : vcsutils) (E : Env).

(** [strings.TrimSuffix] *)
Definition TrimSuffix (s suffix : string) : string :=
  let n := String.length s in
  let k := String.length suffix in
  if (k <=? n)%nat && String.eqb (String.substring (n - k) k s) suffix
  then String.substring 0 (n - k) s
  else s.

(** [string(os.PathSeparator)], on every system but Windows. *)
Definition PathSeparator : string := "/".

(** The constructor asks nothing of the outside: it only builds the
    connection descriptor of the SDK. *)
Definition NewAzureReposClient (vcsInfo : VcsInfo)
  : AzureReposClient * option error :=
  let baseUrl := TrimSuffix (APIEndpoint vcsInfo) PathSeparator in
  ({| vcsInfo := vcsInfo;
      connectionDetails := Some (NewPatConnection E baseUrl (Token vcsInfo)) |},
   None).

Definition buildAzureReposClient (client : AzureReposClient) (ctx : Context)
  : Go (option git_Client * option error) :=
  match connectionDetails client with
  | None => mret (None, Some (errors_New "connection details wasn't initialized"))
  | Some conn => extern (EvNewClient conn) (git_NewClient E ctx conn)
  end.

(** *** TestConnection *)

Definition TestConnection (client : AzureReposClient) (ctx : Context)
  : Go (option error) :=
  conn ← deref (connectionDetails client);
  '(_, err) ← extern (EvGetResourceAreas (BaseUrl conn))
                     (GetResourceAreas E ctx conn);
  mret err.

(** *** ListRepositories *)

Definition ListRepositories (client : AzureReposClient) (ctx : Context)
  : Go (option (gmap string (list string)) * option error) :=
  '(azureReposGitClient, err) ← buildAzureReposClient client ctx;
  match err with
  | Some e => mret (None, Some e)
  | None =>
      let repositories : gmap string (list string) := ∅ in
      let args := {| GR_Project := Project (vcsInfo client) |} in
      gitClient ← deref azureReposGitClient;
      '(resp, err) ← extern (EvGetRepositories args)
                            (git_GetRepositories gitClient ctx args);
      match err with
      | Some e => mret (Some repositories, Some e)
      | None =>
          resp ← deref resp;
          repositories ← for_each resp (fun repo repositories =>
            name ← deref (Repo_Name repo);
            let project := Project (vcsInfo client) in
            mret (<[project := default [] (repositories !! project) ++ [name]]>
                    repositories)) repositories;
          mret (Some repositories, None)
      end
  end.

(** *** ListBranches *)

Definition ListBranches (client : AzureReposClient) (ctx : Context)
  (_owner repository : string) : Go (list string * option error) :=
  '(azureReposGitClient, err) ← buildAzureReposClient client ctx;
  match err with
  | Some e => mret ([], Some e)
  | None =>
      let branches : list string := [] in
      let args := {| GB_Project := Project (vcsInfo client);
                     GB_RepositoryId := repository |} in
      gitClient ← deref azureReposGitClient;
      '(gitBranchStats, err) ← extern (EvGetBranches args)
                                      (git_GetBranches gitClient ctx args);
      match err with
      | Some e => mret ([], Some e)
      | None =>
          gitBranchStats ← deref gitBranchStats;
          branches ← for_each gitBranchStats (fun branch branches =>
            name ← deref (Branch_Name branch);
            mret (branches ++ [name])) branches;
          mret (branches, None)
      end
  end.

(** *** DownloadRepository *)

Definition newline : string := String (Ascii.ascii_of_nat 10) EmptyString.

(** [fmt.Sprintf] of the download URL. *)
Definition downloadRepoUrlOf (baseUrl project repository branch : string)
  : string :=
  baseUrl +:+ "/" +:+ project +:+ "/_apis/git/repositories/" +:+ repository
  +:+ "/items/items?path=/&[…]ptor[version]=" +:+ branch +:+ "&$format=zip".

Definition sendDownloadRepoRequest (client : AzureReposClient) (ctx : Context)
  (repository branch : string) : Go (option Response * option error) :=
  conn ← deref (connectionDetails client);
  let downloadRepoUrl :=
    downloadRepoUrlOf (BaseUrl conn) (Project (vcsInfo client)) repository branch in
  logger_Debug ["download url:"; downloadRepoUrl];;
  let headers := [("Authorization", AuthorizationString conn);
                  ("download", "true");
                  ("resolveLfs", "true")] in
  let '(req, err) := http_NewRequestWithContext E ctx "GET" downloadRepoUrl in
  match err with
  | Some e => mret (None, Some e)
  | None =>
      req ← deref req;
      let req := {| Req_Method := Req_Method req;
                    Req_URL := Req_URL req;
                    Req_Header := foldl (fun h kv => Header_Add kv.1 kv.2 h)
                                        (Req_Header req) headers |} in
      '(res, err) ← extern (EvHttpDo req) (httpClient_Do E req);
      match err with
      | Some e => mret (res, Some e)
      | None =>
          response ← deref res;
          let err :=
            if (StatusCode response <? 200) || (300 <=? StatusCode response)
            then Some (errorString
                         ("bad HTTP status: " +:+ pretty (StatusCode response)))
            else None in
          logger_Info [repository;
            "downloaded successfully, starting with repository extraction"];;
          mret (res, err)
      end
  end.

Definition DownloadRepository (client : AzureReposClient) (ctx : Context)
  (_owner repository branch localPath : string) : Go (option error) :=
  '(wd, err) ← os_Getwd E;
  match err with
  | Some e => mret (Some e)
  | None =>
      err ← os_Chdir E localPath;
      match err with
      | Some e => mret (Some e)
      | None =>
          defer (os_Chdir E wd) (
            '(res, err) ← sendDownloadRepoRequest client ctx repository branch;
            defer (response ← deref res;
                   extern (EvClose (Body response))
                          (Body_Close E (Body response))) (
              match err with
              | Some e => mret (Some e)
              | None =>
                  response ← deref res;
                  '(zipFileContent, err) ←
                    extern (EvReadAll (Body response))
                           (io_ReadAll E (Body response));
                  match err with
                  | Some e => mret (Some e)
                  | None =>
                      err ← extern (EvUnzip zipFileContent localPath)
                                   (Unzip U zipFileContent localPath);
                      match err with
                      | Some e => mret (Some e)
                      | None =>
                          logger_Info ["extracted repository successfully"];;
                          mret None
                      end
                  end
              end))
      end
  end.

(** *** CreatePullRequest *)

Definition CreatePullRequest (client : AzureReposClient) (ctx : Context)
  (_owner repository sourceBranch targetBranch title description : string)
  : Go (option error) :=
  '(azureReposGitClient, err) ← buildAzureReposClient client ctx;
  match err with
  | Some e => mret (Some e)
  | None =>
      let sourceBranch := AddBranchPrefix U sourceBranch in
      let targetBranch := AddBranchPrefix U targetBranch in
      logger_Debug ["creating new pull request:"; title];;
      let args :=
        {| CPR_PullRequest :=
             {| PullRequestId := None;
                SourceRefName := Some sourceBranch;
                TargetRefName := Some targetBranch;
                PR_Title := Some title;
                PR_Description := Some description |};
           CPR_RepositoryId := repository;
           CPR_Project := Project (vcsInfo client) |} in
      gitClient ← deref azureReposGitClient;
      '(_, err) ← extern (EvCreatePullRequest args)
                         (git_CreatePullRequest gitClient ctx args);
      mret err
  end.

(** *** AddPullRequestComment *)

Definition AddPullRequestComment (client : AzureReposClient) (ctx : Context)
  (_owner repository content : string) (pullRequestID : Z)
  : Go (option error) :=
  '(azureReposGitClient, err) ← buildAzureReposClient client ctx;
  match err with
  | Some e => mret (Some e)
  | None =>
      let args :=
        {| CT_Comments := [ {| Comment_Author := None;
                               Comment_Content := Some content;
                               Comment_Id := None |} ];
           CT_Status := ThreadActive;
           CT_RepositoryId := repository;
           CT_PullRequestId := pullRequestID;
           CT_Project := Project (vcsInfo client) |} in
      gitClient ← deref azureReposGitClient;
      '(_, err) ← extern (EvCreateThread args)
                         (git_CreateThread gitClient ctx args);
      mret err
  end.

(** *** ListPullRequestComments *)

(** [fmt.Sprintf("Author: %s, Id: %d, Content:%s\n", ...)] *)
Definition commentLine (displayName : string) (id : Z) (content : string)
  : string :=
  "Author: " +:+ displayName +:+ ", Id: " +:+ pretty id +:+ ", Content:"
  +:+ content +:+ newline.

(** [int64(n)] of an [int]: the value is kept. *)
Definition int64_of_int (n : Z) : Z := n.

Definition ListPullRequestComments (client : AzureReposClient) (ctx : Context)
  (_owner repository : string) (pullRequestID : Z)
  : Go (list CommentInfo * option error) :=
  '(azureReposGitClient, err) ← buildAzureReposClient client ctx;
  match err with
  | Some e => mret ([], Some e)
  | None =>
      let args := {| GT_RepositoryId := repository;
                     GT_PullRequestId := pullRequestID;
                     GT_Project := Project (vcsInfo client) |} in
      gitClient ← deref azureReposGitClient;
      '(threads, err) ← extern (EvGetThreads args)
                               (git_GetThreads gitClient ctx args);
      match err with
      | Some e => mret ([], Some e)
      | None =>
          let commentInfo : list CommentInfo := [] in
          threads ← deref threads;
          r ← for_range threads (fun thread commentInfo =>
            let commentsAggregator : string := EmptyString in
            comments ← deref (Thread_Comments thread);
            r ← for_range comments (fun comment commentsAggregator =>
              author ← deref (Comment_Author comment);
              displayName ← deref (DisplayName author);
              id ← deref (Comment_Id comment);
              content ← deref (Comment_Content comment);
              let '(commentsAggregator, err) :=
                WriteString commentsAggregator
                            (commentLine displayName id content) in
              match err with
              | Some e => mret (inr ([], Some e))
              | None => mret (inl commentsAggregator)
              end) commentsAggregator;
            match r with
            | inr res => mret (inr res)
            | inl commentsAggregator =>
                threadId ← deref (Thread_Id thread);
                publishedDate ← deref (Thread_PublishedDate thread);
                mret (inl (commentInfo ++
                             [ {| ID := int64_of_int threadId;
                                  Created := publishedDate;
                                  Content := commentsAggregator |} ]))
            end) commentInfo;
          match r with
          | inr res => mret res
          | inl commentInfo => mret (commentInfo, None)
          end
      end
  end.

(** *** ListOpenPullRequests *)

Definition ListOpenPullRequests (client : AzureReposClient) (ctx : Context)
  (_owner repository : string) : Go (list PullRequestInfo * option error) :=
  '(azureReposGitClient, err) ← buildAzureReposClient client ctx;
  match err with
  | Some e => mret ([], Some e)
  | None =>
      logger_Debug ["fetching open pull requests in"; repository];;
      let args := {| GPR_RepositoryId := repository;
                     GPR_Project := Project (vcsInfo client);
                     GPR_Status := PullRequestActive |} in
      gitClient ← deref azureReposGitClient;
      '(pullRequests, err) ← extern (EvGetPullRequests args)
                                    (git_GetPullRequests gitClient ctx args);
      match err with
      | Some e => mret ([], Some e)
      | None =>
          let pullRequestsInfo : list PullRequestInfo := [] in
          pullRequests ← deref pullRequests;
          pullRequestsInfo ← for_each pullRequests
            (fun pullRequest pullRequestsInfo =>
               prId ← deref (PullRequestId pullRequest);
               mret (pullRequestsInfo ++
                 [ {| PR_ID := int64_of_int prId;
                      Source :=
                        {| Name := DefaultIfNotNil U (SourceRefName pullRequest);
                           Repository := repository |};
                      Target :=
                        {| Name := DefaultIfNotNil U (TargetRefName pullRequest);
                           Repository := repository |} |} ]))
            pullRequestsInfo;
          mret (pullRequestsInfo, None)
      end
  end.

(** *** GetLatestCommit *)

Definition GetLatestCommit (client : AzureReposClient) (ctx : Context)
  (_owner repository branch : string) : Go (CommitInfo * option error) :=
  '(azureReposGitClient, err) ← buildAzureReposClient client ctx;
  match err with
  | Some e => mret (zero, Some e)
  | None =>
      let latestCommitInfo : CommitInfo := zero in
      let args := {| GC_RepositoryId := repository;
                     GC_Project := Project (vcsInfo client);
                     GC_Version := branch;
                     GC_VersionType := VersionTypeBranch |} in
      gitClient ← deref azureReposGitClient;
      '(commits, err) ← extern (EvGetCommits args)
                               (git_GetCommits gitClient ctx args);
      match err with
      | Some e => mret (latestCommitInfo, Some e)
      | None =>
          commits ← deref commits;
          match commits with
          | latestCommit :: _ =>
              (* len( *commits) > 0: the latest commit is the first *)
              author ← deref (Commit_Author latestCommit);
              committer ← deref (Commit_Committer latestCommit);
              date ← deref (User_Date committer);
              mret ({| Hash := DefaultIfNotNil U (CommitId latestCommit);
                       AuthorName := DefaultIfNotNil U (User_Name author);
                       CommitterName := DefaultIfNotNil U (User_Name committer);
                       Url := DefaultIfNotNil U (Commit_Url latestCommit);
                       Timestamp := Unix date;
                       Message := DefaultIfNotNil U (Commit_Comment latestCommit);
                       ParentHashes :=
                         DefaultIfNotNil U (Commit_Parents latestCommit) |},
                    None)
          | [] => mret (latestCommitInfo, None)
          end
      end
  end.

(** *** The operations Azure Repos does not support *)

Definition getUnsupportedInAzureError (functionName : string) : error :=
  errorString (functionName +:+ " is currently not supported for Azure Repos").

Definition AddSshKeyToRepository (client : AzureReposClient) (ctx : Context)
  (owner repository keyName publicKey : string) (permission : Permission)
  : Go (option error) :=
  mret (Some (getUnsupportedInAzureError "add ssh key to repository")).

Definition GetRepositoryInfo (client : AzureReposClient) (ctx : Context)
  (owner repository : string) : Go (RepositoryInfo * option error) :=
  mret (zero, Some (getUnsupportedInAzureError "get repository info")).

Definition GetCommitBySha (client : AzureReposClient) (ctx : Context)
  (owner repository sha : string) : Go (CommitInfo * option error) :=
  mret (zero, Some (getUnsupportedInAzureError "get commit by sha")).

Definition CreateLabel (client : AzureReposClient) (ctx : Context)
  (owner repository : string) (labelInfo : LabelInfo) : Go (option error) :=
  mret (Some (getUnsupportedInAzureError "create label")).

Definition GetLabel (client : AzureReposClient) (ctx : Context)
  (owner repository name : string) : Go (option LabelInfo * option error) :=
  mret (None, Some (getUnsupportedInAzureError "get label")).

Definition ListPullRequestLabels (client : AzureReposClient) (ctx : Context)
  (owner repository : string) (pullRequestID : Z)
  : Go (list string * option error) :=
  mret ([], Some (getUnsupportedInAzureError "list pull request labels")).

Definition UnlabelPullRequest (client : AzureReposClient) (ctx : Context)
  (owner repository name : string) (pullRequestID : Z) : Go (option error) :=
  mret (Some (getUnsupportedInAzureError "unlabel pull request")).

Definition UploadCodeScanning (client : AzureReposClient) (ctx : Context)
  (owner repository branch scanResults : string) : Go (string * option error) :=
  mret (EmptyString, Some (getUnsupportedInAzureError "upload code scanning")).

Definition CreateWebhook (client : AzureReposClient) (ctx : Context)
  (owner repository branch payloadURL : string)
  (webhookEvents : list WebhookEvent) : Go (string * string * option error) :=
  mret (EmptyString, EmptyString,
        Some (getUnsupportedInAzureError "create webhook")).

Definition UpdateWebhook (client : AzureReposClient) (ctx : Context)
  (owner repository branch payloadURL token webhookID : string)
  (webhookEvents : list WebhookEvent) : Go (option error) :=
  mret (Some (getUnsupportedInAzureError "update webhook")).

Definition DeleteWebhook (client : AzureReposClient) (ctx : Context)
  (owner repository webhookID : string) : Go (option error) :=
  mret (Some (getUnsupportedInAzureError "delete webhook")).

Definition SetCommitStatus (client : AzureReposClient) (ctx : Context)
  (commitStatus : CommitStatus)
  (owner repository ref title description detailsURL : string)
  : Go (option error) :=
  mret (Some (getUnsupportedInAzureError "set commit status")).

End Backend.

(* ===================================================================== *)
(** ** Sample collaborators

    Concrete instances of the parameters, used to run the backend. *)
(* ===================================================================== *)

Definition branchPrefix : string := "refs/heads/".

(** An instance of the helper package: branch names get the [refs/heads/]
    prefix unless they are empty or carry it, a nil pointer reads as the
    zero value, and archives always unpack. *)
Definition sampleUtils : vcsutils :=
  {| AddBranchPrefix := fun branch =>
       if bool_decide (branch = EmptyString) || String.prefix branchPrefix branch
       then branch else branchPrefix +:+ branch;
     DefaultIfNotNil := fun T z p => match p with Some v => v | None => z end;
     Unzip := fun _ _ _ => None |}.

Definition sampleClient : AzureReposClient :=
  {| vcsInfo := {| APIEndpoint := "https://dev.azure.com/org";
                   Token := "pat";
                   Project := "proj" |};
     connectionDetails := Some {| BaseUrl := "https://dev.azure.com/org";
                                  AuthorizationString := "Basic OnBhdA==" |} |}.

Definition ctx0 : Context := {| ctxId := 0 |}.

Definition world0 : World := {| cwd := "/home/user"; trace := [] |}.

(** A provider that answers every request with success and with the given
    contents. *)
Definition cannedClient (repos : list GitRepository)
  (threads : list GitPullRequestCommentThread) (commits : list GitCommitRef)
  : git_Client :=
  {| git_GetRepositories := fun _ _ _ => (Some repos, None);
     git_GetBranches := fun _ _ _ => (Some [], None);
     git_CreatePullRequest := fun _ args _ => (Some (CPR_PullRequest args), None);
     git_CreateThread := fun _ _ _ => (None, None);
     git_GetThreads := fun _ _ _ => (Some threads, None);
     git_GetPullRequests := fun _ _ _ => (Some [], None);
     git_GetCommits := fun _ _ _ => (Some commits, None) |}.

(** A process and a transport around a provider: the directories exist,
    requests are well formed, and the transport answers [answer]. *)
Definition cannedEnv (gitClient : git_Client)
  (areas : option (list ResourceAreaInfo) * option error)
  (answer : option Response * option error) : Env :=
  {| NewPatConnection := fun url token =>
       {| BaseUrl := url; AuthorizationString := "Basic " +:+ token |};
     git_NewClient := fun _ _ _ => (Some gitClient, None);
     GetResourceAreas := fun _ _ _ => areas;
     Getwd_error := fun _ => None;
     Chdir_error := fun _ _ => None;
     http_NewRequestWithContext := fun _ method url =>
       (Some {| Req_Method := method; Req_URL := url; Req_Header := ∅ |}, None);
     httpClient_Do := fun _ _ => answer;
     io_ReadAll := fun _ _ => ([80; 75; 5; 6], None);
     Body_Close := fun _ _ => None |}.

(** A transport that cannot reach the provider: [httpClient.Do] answers a
    nil response and an error. *)
Definition connectionRefused : error :=
  foreignError FromTransport "dial tcp: connect: connection refused".

Definition unreachableEnv : Env :=
  cannedEnv (cannedClient [] [] []) (None, None) (None, Some connectionRefused).

Definition notFoundEnv : Env :=
  cannedEnv (cannedClient [] [] []) (None, None)
            (Some {| StatusCode := 404; Body := {| bodyId := 1 |} |}, None).

Definition zipEnv : Env :=
  cannedEnv (cannedClient [] [] []) (None, None)
            (Some {| StatusCode := 200; Body := {| bodyId := 1 |} |}, None).

Definition unauthorized : error := foreignError FromSdk "401 Unauthorized".

(** A provider that refuses every request with [e]. *)
Definition refusingClient (e : error) : git_Client :=
  {| git_GetRepositories := fun _ _ _ => (None, Some e);
     git_GetBranches := fun _ _ _ => (None, Some e);
     git_CreatePullRequest := fun _ _ _ => (None, Some e);
     git_CreateThread := fun _ _ _ => (None, Some e);
     git_GetThreads := fun _ _ _ => (None, Some e);
     git_GetPullRequests := fun _ _ _ => (None, Some e);
     git_GetCommits := fun _ _ _ => (None, Some e) |}.

Definition unauthorizedEnv : Env :=
  cannedEnv (refusingClient unauthorized) (None, Some unauthorized)
            (None, Some connectionRefused).

(** Three threads of a pull request, in the order they were opened. *)
Definition commentOf (displayName : string) (id : Z) (content : string)
  : Comment :=
  {| Comment_Author := Some {| DisplayName := Some displayName |};
     Comment_Content := Some content;
     Comment_Id := Some id |}.

Definition threadA : GitPullRequestCommentThread :=
  {| Thread_Comments := Some [commentOf "Ann" 1 "first"; commentOf "Bob" 2 "reply"];
     Thread_Id := Some 11;
     Thread_PublishedDate := Some {| Unix := 1000; Nanosecond := 0 |} |}.

Definition threadB : GitPullRequestCommentThread :=
  {| Thread_Comments := Some [commentOf "Bob" 1 "second"];
     Thread_Id := Some 12;
     Thread_PublishedDate := Some {| Unix := 2000; Nanosecond := 0 |} |}.

Definition threadC : GitPullRequestCommentThread :=
  {| Thread_Comments := Some [];
     Thread_Id := Some 13;
     Thread_PublishedDate := Some {| Unix := 3000; Nanosecond := 500 |} |}.

Definition threadsEnv (threads : list GitPullRequestCommentThread) : Env :=
  cannedEnv (cannedClient [] threads []) (None, None) (None, None).

Definition sampleConnection : Connection :=
  {| BaseUrl := "https://dev.azure.com/org";
     AuthorizationString := "Basic OnBhdA==" |}.

Definition headCommit : GitCommitRef :=
  {| CommitId := Some "86d6919952702f9ab03bc95b45687f145a663de0";
     Commit_Author :=
       Some {| User_Date := Some {| Unix := 1000; Nanosecond := 0 |};
               User_Name := Some "Ann" |};
     Commit_Committer :=
       Some {| User_Date := Some {| Unix := 2000; Nanosecond := 0 |};
               User_Name := Some "Bob" |};
     Commit_Url := Some "https://dev.azure.com/org/proj/_apis/git/commits/86d6";
     Commit_Comment := Some "Updated README.md";
     Commit_Parents := Some ["f1d2d2f924e986ac86fdf7b36c94bcdf32beec15"] |}.

Definition olderCommit : GitCommitRef :=
  {| CommitId := Some "f1d2d2f924e986ac86fdf7b36c94bcdf32beec15";
     Commit_Author := None;
     Commit_Committer := None;
     Commit_Url := None;
     Commit_Comment := None;
     Commit_Parents := None |}.

Definition commitsEnv (commits : list GitCommitRef) : Env :=
  cannedEnv (cannedClient [] [] commits) (None, None) (None, None).

Definition repositoriesEnv (repos : list GitRepository) : Env :=
  cannedEnv (cannedClient repos [] []) (None, None) (None, None).

(** A provider that accepts whatever it is asked to create. *)
Definition acceptingEnv : Env :=
  cannedEnv (cannedClient [] [] []) (None, None) (None, None).

(* ===================================================================== *)
(** ** What the properties are stated with *)
(* ===================================================================== *)

(** An error message mentions a phrase. *)
Definition mentions (phrase : string) (e : error) : Prop :=
  match e with
  | errorString s => exists before after, s = before +:+ phrase +:+ after
  | foreignError _ _ => False
  end.

(** A call fails as unsupported: in every world it returns, leaves the
    world as it was, yields the zero values [zeroes] and the error of
    [getUnsupportedInAzureError], which names the operation and the
    provider. *)
Definition fails_unsupported {A : Type} (operation : string) (zeroes : A)
  (call : Go (A * option error)) : Prop :=
  forall w : World, exists e : error,
    call w = (Returned (zeroes, Some e), w) /\
    e = getUnsupportedInAzureError operation /\
    mentions operation e /\ mentions "Azure Repos" e.

(** The same for an operation whose only result is the error. *)
Definition fails_unsupported_only (operation : string)
  (call : Go (option error)) : Prop :=
  forall w : World, exists e : error,
    call w = (Returned (Some e), w) /\
    e = getUnsupportedInAzureError operation /\
    mentions operation e /\ mentions "Azure Repos" e.

(** The requests the backend sends. *)
Definition getBranchesArgsOf (client : AzureReposClient) (repository : string)
  : GetBranchesArgs :=
  {| GB_Project := Project (vcsInfo client); GB_RepositoryId := repository |}.

Definition createPullRequestArgsOf (U : vcsutils) (client : AzureReposClient)
  (repository sourceBranch targetBranch title description : string)
  : CreatePullRequestArgs :=
  {| CPR_PullRequest :=
       {| PullRequestId := None;
          SourceRefName := Some (AddBranchPrefix U sourceBranch);
          TargetRefName := Some (AddBranchPrefix U targetBranch);
          PR_Title := Some title;
          PR_Description := Some description |};
     CPR_RepositoryId := repository;
     CPR_Project := Project (vcsInfo client) |}.

Definition createThreadArgsOf (client : AzureReposClient)
  (repository content : string) (pullRequestID : Z) : CreateThreadArgs :=
  {| CT_Comments := [ {| Comment_Author := None;
                         Comment_Content := Some content;
                         Comment_Id := None |} ];
     CT_Status := ThreadActive;
     CT_RepositoryId := repository;
     CT_PullRequestId := pullRequestID;
     CT_Project := Project (vcsInfo client) |}.

Definition getThreadsArgsOf (client : AzureReposClient) (repository : string)
  (pullRequestID : Z) : GetThreadsArgs :=
  {| GT_RepositoryId := repository;
     GT_PullRequestId := pullRequestID;
     GT_Project := Project (vcsInfo client) |}.

Definition getPullRequestsArgsOf (client : AzureReposClient)
  (repository : string) : GetPullRequestsArgs :=
  {| GPR_RepositoryId := repository;
     GPR_Project := Project (vcsInfo client);
     GPR_Status := PullRequestActive |}.

Definition getCommitsArgsOf (client : AzureReposClient)
  (repository branch : string) : GetCommitsArgs :=
  {| GC_RepositoryId := repository;
     GC_Project := Project (vcsInfo client);
     GC_Version := branch;
     GC_VersionType := VersionTypeBranch |}.

(** The world in which the provider is asked: the client has been built,
    and the operations that log have logged. *)
Definition built (conn : Connection) (w : World) : World :=
  record_event (EvNewClient conn) w.

Definition logged (level : LogLevel) (args : list string) (w : World) : World :=
  record_event (EvLog level args) w.

(** The second component of an answer is an error. *)
Definition answers_error {A : Type} (answer : A * option error) (e : error)
  : Prop := answer.2 = Some e.

(** The provider filled in what the backend reads of a comment and of a
    thread. *)
Definition comment_populated (c : Comment) : bool :=
  match Comment_Author c with
  | Some author => bool_decide (is_Some (DisplayName author))
  | None => false
  end
  && bool_decide (is_Some (Comment_Id c))
  && bool_decide (is_Some (Comment_Content c)).

Definition thread_populated (t : GitPullRequestCommentThread) : bool :=
  match Thread_Comments t with
  | Some comments => forallb comment_populated comments
  | None => false
  end
  && bool_decide (is_Some (Thread_Id t))
  && bool_decide (is_Some (Thread_PublishedDate t)).

(** Lines one after the other. *)
Definition concat_lines (lines : list string) : string :=
  foldr String.append EmptyString lines.

(** The line of a comment: its author's display name, its id, its text. *)
Inductive comment_line (c : Comment) : string -> Prop :=
| comment_line_of (author : IdentityRef) (displayName : string) (id : Z)
    (content : string) :
    Comment_Author c = Some author ->
    DisplayName author = Some displayName ->
    Comment_Id c = Some id ->
    Comment_Content c = Some content ->
    comment_line c
      ("Author: " +:+ displayName +:+ ", Id: " +:+ pretty id +:+ ", Content:"
       +:+ content +:+ newline).

(** A [CommentInfo] stands for a thread: the thread's id, the thread's
    published date, and the lines of its comments in the thread's order. *)
Definition thread_flattens (t : GitPullRequestCommentThread) (info : CommentInfo)
  : Prop :=
  Thread_Id t = Some (ID info) /\
  Thread_PublishedDate t = Some (Created info) /\
  exists (comments : list Comment) (lines : list string),
    Thread_Comments t = Some comments /\
    Forall2 comment_line comments lines /\
    Content info = concat_lines lines.

(** The same as functions, total by reading a nil field as a zero value. *)
Definition lineOf (c : Comment) : string :=
  commentLine (default EmptyString (Comment_Author c ≫= DisplayName))
              (default 0 (Comment_Id c))
              (default EmptyString (Comment_Content c)).

Definition flattenThread (t : GitPullRequestCommentThread) : CommentInfo :=
  {| ID := default 0 (Thread_Id t);
     Content := concat_lines (map lineOf (default [] (Thread_Comments t)));
     Created := default zero (Thread_PublishedDate t) |}.

(** An instant is not after another. *)
Definition not_after (a b : Time) : Prop :=
  Unix a < Unix b \/ (Unix a = Unix b /\ Nanosecond a <= Nanosecond b).

(** Dates from the oldest on: no date is after a later one in the list. *)
Definition oldest_first (dates : list Time) : Prop :=
  forall (i j : nat) (a b : Time),
    (i <= j)%nat -> dates !! i = Some a -> dates !! j = Some b -> not_after a b.

(** The map the loop of [ListRepositories] builds from the names. *)
Definition addRepository (project : string)
  (repositories : gmap string (list string)) (name : string)
  : gmap string (list string) :=
  <[project := default [] (repositories !! project) ++ [name]]> repositories.

(** The project mapped to its repositories; no entry when there is none. *)
Definition repositoriesOf (project : string) (names : list string)
  : gmap string (list string) :=
  match names with
  | [] => ∅
  | _ :: _ => {[ project := names ]}
  end.

(** The create requests the provider has been sent so far. *)
Definition createRequestsSent (w : World) : list CreatePullRequestArgs :=
  omap (fun ev => match ev with
                  | EvCreatePullRequest args => Some args
                  | _ => None
                  end) (trace w).

(** The project a request to the provider names. *)
Definition event_project (ev : Event) : option string :=
  match ev with
  | EvGetRepositories args => Some (GR_Project args)
  | EvGetBranches args => Some (GB_Project args)
  | EvCreatePullRequest args => Some (CPR_Project args)
  | EvCreateThread args => Some (CT_Project args)
  | EvGetThreads args => Some (GT_Project args)
  | EvGetPullRequests args => Some (GPR_Project args)
  | EvGetCommits args => Some (GC_Project args)
  | _ => None
  end.

Definition names_project (project : string) (ev : Event) : Prop :=
  forall q : string, event_project ev = Some q -> q = project.

(** A computation only adds to the history, and every request it adds that
    names a project names [project]. *)
Definition asks_only {A : Type} (project : string) (m : Go A) : Prop :=
  forall w : World, exists evs : list Event,
    trace (world_after m w) = trace w ++ evs /\
    Forall (names_project project) evs.

(** A client whose connection details were never set. *)
Definition uninitializedClient : AzureReposClient :=
  {| vcsInfo := {| APIEndpoint := "https://dev.azure.com/org";
                   Token := "pat";
                   Project := "proj" |};
     connectionDetails := None |}.

(** The error of [buildAzureReposClient] on such a client. *)
Definition notInitialized : error :=
  errorString "connection details wasn't initialized".

(** A [PullRequestInfo] stands for a pull request of [repository]: the
    provider's id, and both branch names as [DefaultIfNotNil] reads them,
    each tagged with [repository]. *)
Definition pullRequest_maps (U : vcsutils) (repository : string)
  (pr : GitPullRequest) (info : PullRequestInfo) : Prop :=
  PullRequestId pr = Some (PR_ID info) /\
  Source info = {| Name := DefaultIfNotNil U (SourceRefName pr);
                   Repository := repository |} /\
  Target info = {| Name := DefaultIfNotNil U (TargetRefName pr);
                   Repository := repository |}.

(** The same as a function, total by reading a nil id as zero. *)
Definition pullRequestInfoOf (U : vcsutils) (repository : string)
  (pr : GitPullRequest) : PullRequestInfo :=
  {| PR_ID := default 0 (PullRequestId pr);
     Source := {| Name := DefaultIfNotNil U (SourceRefName pr);
                  Repository := repository |};
     Target := {| Name := DefaultIfNotNil U (TargetRefName pr);
                  Repository := repository |} |}.

(** A provider that lists the given branches and pull requests. *)
Definition listingClient (branches : list GitBranchStats)
  (pullRequests : list GitPullRequest) : git_Client :=
  {| git_GetRepositories := fun _ _ _ => (Some [], None);
     git_GetBranches := fun _ _ _ => (Some branches, None);
     git_CreatePullRequest := fun _ args _ => (Some (CPR_PullRequest args), None);
     git_CreateThread := fun _ _ _ => (None, None);
     git_GetThreads := fun _ _ _ => (Some [], None);
     git_GetPullRequests := fun _ _ _ => (Some pullRequests, None);
     git_GetCommits := fun _ _ _ => (Some [], None) |}.

Definition listingEnv (branches : list GitBranchStats)
  (pullRequests : list GitPullRequest) : Env :=
  cannedEnv (listingClient branches pullRequests) (None, None) (None, None).

Definition openPullRequest : GitPullRequest :=
  {| PullRequestId := Some 42;
     SourceRefName := Some "refs/heads/feature";
     TargetRefName := None;
     PR_Title := Some "title";
     PR_Description := None |}.

(** The thread [AddPullRequestComment] asks the provider to open: active,
    with one comment that has the content and nothing else. *)
Definition newThreadOf (client : AzureReposClient)
  (repository content : string) (pullRequestID : Z) : CreateThreadArgs :=
  {| CT_Comments := [ {| Comment_Author := None;
                         Comment_Content := Some content;
                         Comment_Id := None |} ];
     CT_Status := ThreadActive;
     CT_RepositoryId := repository;
     CT_PullRequestId := pullRequestID;
     CT_Project := Project (vcsInfo client) |}.

(** The threads the provider has been asked to open so far. *)
Definition threadsOpened (w : World) : list CreateThreadArgs :=
  omap (fun ev => match ev with
                  | EvCreateThread args => Some args
                  | _ => None
                  end) (trace w).

(** A commit whose optional fields are all nil, by a dated committer. *)
Definition bareCommit : GitCommitRef :=
  {| CommitId := None;
     Commit_Author := Some {| User_Date := None; User_Name := None |};
     Commit_Committer :=
       Some {| User_Date := Some {| Unix := 3000; Nanosecond := 0 |};
               User_Name := None |};
     Commit_Url := None;
     Commit_Comment := None;
     Commit_Parents := None |}.

(** A thread with a comment whose content is nil. *)
Definition threadWithoutContent : GitPullRequestCommentThread :=
  {| Thread_Comments :=
       Some [ {| Comment_Author := Some {| DisplayName := Some "Ann" |};
                 Comment_Content := None;
                 Comment_Id := Some 3 |} ];
     Thread_Id := Some 14;
     Thread_PublishedDate := Some {| Unix := 4000; Nanosecond := 0 |} |}.

(** The header entries [sendDownloadRepoRequest] adds to the request. *)
Definition downloadHeaders (conn : Connection) : list (string * string) :=
  [("Authorization", AuthorizationString conn);
   ("download", "true");
   ("resolveLfs", "true")].

(** A request with the entries [headers] added in the order of the list. *)
Definition withHeaders (headers : list (string * string)) (req : Request)
  : Request :=
  {| Req_Method := Req_Method req;
     Req_URL := Req_URL req;
     Req_Header := foldl (fun h kv => Header_Add kv.1 kv.2 h)
                         (Req_Header req) headers |}.


(** The requests put on the wire so far. *)
Definition httpRequestsSent (w : World) : list Request :=
  omap (fun ev => match ev with
                  | EvHttpDo req => Some req
                  | _ => None
                  end) (trace w).




(** The response bodies closed so far. *)
Definition bodiesClosed (w : World) : list ReadCloser :=
  omap (fun ev => match ev with
                  | EvClose body => Some body
                  | _ => None
                  end) (trace w).

(** The lines logged so far. *)
Definition logLines (w : World) : list (LogLevel * list string) :=
  omap (fun ev => match ev with
                  | EvLog level args => Some (level, args)
                  | _ => None
                  end) (trace w).

(** The three lines a download logs, in the order it logs them. *)
Definition downloadLogLines (client : AzureReposClient) (conn : Connection)
  (repository branch : string) : list (LogLevel * list string) :=
  [ (Debug, ["download url:";
             downloadRepoUrlOf (BaseUrl conn) (Project (vcsInfo client))
                               repository branch]);
    (Info, [repository;
            "downloaded successfully, starting with repository extraction"]);
    (Info, ["extracted repository successfully"]) ].



(* ===================================================================== *)
(** ** Proof steps *)
(* ===================================================================== *)

Ltac go_step :=
  cbv [outcome world_after mbind Go_bind mret Go_ret extern emit deref panic
       logger_Debug logger_Info buildAzureReposClient] in *.

Ltac use_answer H :=
  match type of H with
  | answers_error ?x _ =>
      let v := fresh "v" in let err := fresh "err" in
      unfold answers_error in H; destruct x as [v err]; simpl in H; subst err
  end.

(* ===================================================================== *)
(** ** Properties *)
(* ===================================================================== *)

(** *** The constructor *)

Example NewAzureReposClient_trims_endpoint :
  NewAzureReposClient
    (cannedEnv (cannedClient [] [] []) (None, None) (None, None))
    {| APIEndpoint := "https://dev.azure.com/org/"; Token := "pat";
       Project := "proj" |}
  = ({| vcsInfo := {| APIEndpoint := "https://dev.azure.com/org/";
                      Token := "pat"; Project := "proj" |};
        connectionDetails :=
          Some {| BaseUrl := "https://dev.azure.com/org";
                  AuthorizationString := "Basic pat" |} |}, None).
Proof. reflexivity. Qed.

(** A client made by the constructor has its connection details. *)
Lemma NewAzureReposClient_initialized (E : Env) (info : VcsInfo) :
  exists conn : Connection,
    connectionDetails (NewAzureReposClient E info).1 = Some conn /\
    vcsInfo (NewAzureReposClient E info).1 = info /\
    (NewAzureReposClient E info).2 = None.
Proof. eexists. repeat split. Qed.

(* --------------------------------------------------------------------- *)
(** *** The operations Azure Repos does not support *)
(* --------------------------------------------------------------------- *)

Lemma append_cons (c : Ascii.ascii) (s1 s2 : string) :
  String c s1 +:+ s2 = String c (s1 +:+ s2).
Proof. reflexivity. Qed.

Lemma append_assoc (s1 s2 s3 : string) :
  (s1 +:+ s2) +:+ s3 = s1 +:+ s2 +:+ s3.
Proof.
  induction s1 as [|c s1 IH]; [reflexivity |].
  rewrite !append_cons, IH. reflexivity.
Qed.

Lemma append_empty_r (s : string) : s +:+ EmptyString = s.
Proof.
  induction s as [|c s IH]; [reflexivity |].
  rewrite append_cons, IH. reflexivity.
Qed.

Lemma getUnsupportedInAzureError_mentions (functionName : string) :
  mentions functionName (getUnsupportedInAzureError functionName) /\
  mentions "Azure Repos" (getUnsupportedInAzureError functionName).
Proof.
  split; simpl.
  - exists EmptyString, " is currently not supported for Azure Repos".
    reflexivity.
  - exists (functionName +:+ " is currently not supported for "), EmptyString.
    rewrite append_assoc. reflexivity.
Qed.

Lemma mret_fails_unsupported {A : Type} (operation : string) (zeroes : A) :
  fails_unsupported operation zeroes
    (mret (zeroes, Some (getUnsupportedInAzureError operation))).
Proof.
  intros w. exists (getUnsupportedInAzureError operation).
  pose proof (getUnsupportedInAzureError_mentions operation) as [Hop Hprov].
  repeat split; assumption.
Qed.

Lemma mret_fails_unsupported_only (operation : string) :
  fails_unsupported_only operation
    (mret (Some (getUnsupportedInAzureError operation))).
Proof.
  intros w. exists (getUnsupportedInAzureError operation).
  pose proof (getUnsupportedInAzureError_mentions operation) as [Hop Hprov].
  repeat split; assumption.
Qed.

(** C1. Each of the twelve operations Azure Repos does not support, on
    every client, context, argument list and world, returns (it does not
    panic and does nothing to the world) a non-nil error, the one built by
    [getUnsupportedInAzureError], whose message names the operation and the
    provider "Azure Repos"; every other result is the zero value of its
    type. *)
Theorem unsupported_operations_fail_uniformly
  (client : AzureReposClient) (ctx : Context)
  (owner repository branch name ref title description : string)
  (keyName publicKey sha scanResults payloadURL token webhookID detailsURL : string)
  (permission : Permission) (labelInfo : LabelInfo) (pullRequestID : Z)
  (webhookEvents : list WebhookEvent) (commitStatus : CommitStatus) :
  fails_unsupported_only "add ssh key to repository"
    (AddSshKeyToRepository client ctx owner repository keyName publicKey
                           permission) /\
  fails_unsupported "get repository info" (zero : RepositoryInfo)
    (GetRepositoryInfo client ctx owner repository) /\
  fails_unsupported "get commit by sha" (zero : CommitInfo)
    (GetCommitBySha client ctx owner repository sha) /\
  fails_unsupported_only "create label"
    (CreateLabel client ctx owner repository labelInfo) /\
  fails_unsupported "get label" (None : option LabelInfo)
    (GetLabel client ctx owner repository name) /\
  fails_unsupported "list pull request labels" ([] : list string)
    (ListPullRequestLabels client ctx owner repository pullRequestID) /\
  fails_unsupported_only "unlabel pull request"
    (UnlabelPullRequest client ctx owner repository name pullRequestID) /\
  fails_unsupported "upload code scanning" EmptyString
    (UploadCodeScanning client ctx owner repository branch scanResults) /\
  fails_unsupported "create webhook" (EmptyString, EmptyString)
    (CreateWebhook client ctx owner repository branch payloadURL
                   webhookEvents) /\
  fails_unsupported_only "update webhook"
    (UpdateWebhook client ctx owner repository branch payloadURL token
                   webhookID webhookEvents) /\
  fails_unsupported_only "delete webhook"
    (DeleteWebhook client ctx owner repository webhookID) /\
  fails_unsupported_only "set commit status"
    (SetCommitStatus client ctx commitStatus owner repository ref title
                     description detailsURL).
Proof.
  repeat split;
    first [ apply mret_fails_unsupported_only | apply mret_fails_unsupported ].
Qed.

(* --------------------------------------------------------------------- *)
(** *** DownloadRepository *)
(* --------------------------------------------------------------------- *)

Lemma os_Chdir_returns (E : Env) (path : string) (w : World) :
  exists e, outcome (os_Chdir E path) w = Returned e.
Proof.
  unfold outcome, os_Chdir. destruct (Chdir_error E path w); eauto.
Qed.

Lemma os_Chdir_cwd (E : Env) (path : string) (w : World) :
  Chdir_error E path w = None ->
  cwd (world_after (os_Chdir E path) w) = path.
Proof.
  intros H. unfold world_after, os_Chdir. rewrite H. reflexivity.
Qed.

(** The deferred call runs on every exit of the rest, a panic included. *)
Lemma defer_world (cleanup rest : Go (option error)) (w : World) :
  world_after (defer cleanup rest) w
  = world_after cleanup (world_after rest w).
Proof.
  unfold world_after, defer.
  destruct (rest w) as [[err|r] w1]; simpl;
    destruct (cleanup w1) as [[e|r'] w2]; reflexivity.
Qed.

(** A panic of the rest is not stopped by a deferred call that returns. *)
Lemma defer_panic (cleanup rest : Go (option error)) (w : World) (r : string) :
  outcome rest w = Panicked r ->
  (exists e, outcome cleanup (world_after rest w) = Returned e) ->
  outcome (defer cleanup rest) w = Panicked r.
Proof.
  unfold outcome, world_after, defer. intros Hrest [e Hclean].
  destruct (rest w) as [[err|r0] w1]; simpl in *; [discriminate |].
  destruct (cleanup w1) as [[e'|r'] w2]; simpl in *; congruence.
Qed.

(** Whatever happens, if the working directory can be entered again, the
    call leaves the process in the directory it started in. *)
Lemma DownloadRepository_restores_cwd (U : vcsutils) (E : Env)
  (client : AzureReposClient) (ctx : Context)
  (owner repository branch localPath : string) (w : World) :
  (forall w', Chdir_error E (cwd w) w' = None) ->
  cwd (world_after
         (DownloadRepository U E client ctx owner repository branch localPath)
         w) = cwd w.
Proof.
  intros Hback. unfold DownloadRepository, world_after.
  cbv [mbind Go_bind os_Getwd].
  destruct (Getwd_error E w) as [e|]; [reflexivity |].
  unfold os_Chdir at 1.
  destruct (Chdir_error E localPath (record_event EvGetwd w)) as [e|];
    [reflexivity |].
  simpl cwd.
  match goal with
  | |- cwd (snd (defer ?c ?r ?w0)) = _ =>
      change (cwd (world_after (defer c r) w0) = cwd w)
  end.
  rewrite defer_world. apply os_Chdir_cwd. apply Hback.
Qed.

(** When the request yields no response, the deferred [res.Body.Close()]
    dereferences nil: the call panics instead of returning the error. *)
Lemma DownloadRepository_nil_response_panics (U : vcsutils) (E : Env)
  (client : AzureReposClient) (ctx : Context)
  (owner repository branch localPath : string) (w w' : World)
  (err : option error) :
  Getwd_error E w = None ->
  Chdir_error E localPath (record_event EvGetwd w) = None ->
  sendDownloadRepoRequest E client ctx repository branch
    (set_cwd localPath (record_event (EvChdir localPath) (record_event EvGetwd w)))
  = (Returned (None, err), w') ->
  outcome (DownloadRepository U E client ctx owner repository branch localPath)
          w = Panicked nilDereference.
Proof.
  intros Hwd Hcd Hsend. unfold DownloadRepository, outcome.
  cbv [mbind Go_bind os_Getwd]. rewrite Hwd.
  unfold os_Chdir at 1. rewrite Hcd.
  apply defer_panic.
  - unfold outcome. rewrite Hsend.
    unfold defer. destruct err; reflexivity.
  - apply os_Chdir_returns.
Qed.

(** A failure to read the working directory or to enter the destination is
    returned, and the working directory is as it was. *)
Lemma DownloadRepository_reports_directory_failure (U : vcsutils) (E : Env)
  (client : AzureReposClient) (ctx : Context)
  (owner repository branch localPath : string) (w : World) (e : error) :
  Getwd_error E w = Some e \/
  (Getwd_error E w = None /\
   Chdir_error E localPath (record_event EvGetwd w) = Some e) ->
  outcome (DownloadRepository U E client ctx owner repository branch localPath)
          w = Returned (Some e) /\
  cwd (world_after
         (DownloadRepository U E client ctx owner repository branch localPath)
         w) = cwd w.
Proof.
  intros Hfail. unfold DownloadRepository, outcome, world_after.
  cbv [mbind Go_bind os_Getwd].
  destruct Hfail as [Hwd | [Hwd Hcd]]; rewrite Hwd.
  - split; reflexivity.
  - assert (Hchdir : os_Chdir E localPath (record_event EvGetwd w)
                     = (Returned (Some e),
                        record_event (EvChdir localPath)
                                     (record_event EvGetwd w))).
    { unfold os_Chdir. rewrite Hcd. reflexivity. }
    rewrite Hchdir. split; reflexivity.
Qed.


(** A failing [httpClient.Do] is such a case. *)
Lemma sendDownloadRepoRequest_transport_failure (E : Env)
  (client : AzureReposClient) (ctx : Context) (repository branch : string)
  (conn : Connection) (req : Request) (e : error) (w : World) :
  connectionDetails client = Some conn ->
  http_NewRequestWithContext E ctx "GET"
    (downloadRepoUrlOf (BaseUrl conn) (Project (vcsInfo client))
                       repository branch) = (Some req, None) ->
  (forall r w', httpClient_Do E r w' = (None, Some e)) ->
  exists w',
    sendDownloadRepoRequest E client ctx repository branch w
    = (Returned (None, Some e), w').
Proof.
  intros Hconn Hreq Hdo. unfold sendDownloadRepoRequest.
  rewrite Hconn. go_step. rewrite Hreq. rewrite Hdo. eauto.
Qed.

Example DownloadRepository_succeeds :
  outcome (DownloadRepository sampleUtils zipEnv sampleClient ctx0
             "owner" "repo" "main" "/tmp/checkout") world0
  = Returned None.
Proof. vm_compute. reflexivity. Qed.

Example DownloadRepository_bad_status :
  outcome (DownloadRepository sampleUtils notFoundEnv sampleClient ctx0
             "owner" "repo" "main" "/tmp/checkout") world0
  = Returned (Some (errorString "bad HTTP status: 404")) /\
  cwd (world_after (DownloadRepository sampleUtils notFoundEnv sampleClient
                      ctx0 "owner" "repo" "main" "/tmp/checkout") world0)
  = cwd world0.
Proof. split; vm_compute; reflexivity. Qed.

(** C2 (the code departs from it). The transport cannot reach the provider:
    every directory exists, the request is well formed, and
    [httpClient.Do] answers a nil response with an error.  The call does
    not return that error: it panics with a nil dereference, raised by the
    deferred [res.Body.Close()] that is registered before the error is
    looked at.  The working directory is put back all the same, by the
    deferred call registered first. *)
Theorem DownloadRepository_panics_on_transport_failure :
  outcome (DownloadRepository sampleUtils unreachableEnv sampleClient ctx0
             "owner" "repo" "main" "/tmp/checkout") world0
  = Panicked nilDereference /\
  cwd (world_after (DownloadRepository sampleUtils unreachableEnv sampleClient
                      ctx0 "owner" "repo" "main" "/tmp/checkout") world0)
  = cwd world0.
Proof.
  split.
  - destruct (sendDownloadRepoRequest_transport_failure unreachableEnv
                sampleClient ctx0 "repo" "main"
                {| BaseUrl := "https://dev.azure.com/org";
                   AuthorizationString := "Basic OnBhdA==" |}
                {| Req_Method := "GET";
                   Req_URL := downloadRepoUrlOf "https://dev.azure.com/org"
                                                "proj" "repo" "main";
                   Req_Header := ∅ |}
                connectionRefused
                (set_cwd "/tmp/checkout"
                   (record_event (EvChdir "/tmp/checkout")
                      (record_event EvGetwd world0))))
      as [w' Hsend]; [reflexivity | reflexivity | reflexivity |].
    apply (DownloadRepository_nil_response_panics _ _ _ _ _ _ _ _ _ w'
             (Some connectionRefused)); [reflexivity | reflexivity |].
    exact Hsend.
  - apply DownloadRepository_restores_cwd. reflexivity.
Qed.

(* --------------------------------------------------------------------- *)
(** *** Errors of the provider *)
(* --------------------------------------------------------------------- *)

(** C3 (as stated, it fails). An error made by the SDK reaches the caller
    of [TestConnection] and of [ListBranches] as it is. *)
Lemma provider_native_error_crosses_boundary :
  ~ (forall (E : Env) (client : AzureReposClient) (ctx : Context) (w : World)
            (e : error),
       outcome (TestConnection E client ctx) w = Returned (Some e) ->
       isProviderNative e = false) /\
  ~ (forall (E : Env) (client : AzureReposClient) (ctx : Context)
            (owner repository : string) (w : World)
            (branches : list string) (e : error),
       outcome (ListBranches E client ctx owner repository) w
       = Returned (branches, Some e) ->
       isProviderNative e = false).
Proof.
  split; intros H.
  - specialize (H unauthorizedEnv sampleClient ctx0 world0 unauthorized).
    discriminate H. reflexivity.
  - specialize (H unauthorizedEnv sampleClient ctx0 "owner" "repo" world0 []
                  unauthorized).
    discriminate H. reflexivity.
Qed.

(** C3 (amended). Every operation that asks the provider hands the
    provider's failure to its caller as it is: when the resource areas, the
    construction of the SDK client, or the provider call answers an error,
    that same error value is the error the operation returns, next to the
    zero value (for [ListRepositories] after the client was built: the
    empty map) of its other result. *)
Theorem provider_errors_are_returned_unchanged
  (U : vcsutils) (E : Env) (client : AzureReposClient) (ctx : Context)
  (conn : Connection) (w : World) (e : error)
  (owner repository branch sourceBranch targetBranch title description : string)
  (content : string) (pullRequestID : Z) :
  connectionDetails client = Some conn ->
  (answers_error (GetResourceAreas E ctx conn w) e ->
   outcome (TestConnection E client ctx) w = Returned (Some e)) /\
  (answers_error (git_NewClient E ctx conn w) e ->
   outcome (ListRepositories E client ctx) w = Returned (None, Some e) /\
   outcome (ListBranches E client ctx owner repository) w
   = Returned ([], Some e) /\
   outcome (CreatePullRequest U E client ctx owner repository sourceBranch
              targetBranch title description) w = Returned (Some e) /\
   outcome (AddPullRequestComment E client ctx owner repository content
              pullRequestID) w = Returned (Some e) /\
   outcome (ListPullRequestComments E client ctx owner repository
              pullRequestID) w = Returned ([], Some e) /\
   outcome (ListOpenPullRequests U E client ctx owner repository) w
   = Returned ([], Some e) /\
   outcome (GetLatestCommit U E client ctx owner repository branch) w
   = Returned (zero, Some e)) /\
  (forall gitClient : git_Client,
     git_NewClient E ctx conn w = (Some gitClient, None) ->
     (answers_error
        (git_GetRepositories gitClient ctx
           {| GR_Project := Project (vcsInfo client) |} (built conn w)) e ->
      outcome (ListRepositories E client ctx) w = Returned (Some ∅, Some e)) /\
     (answers_error
        (git_GetBranches gitClient ctx (getBranchesArgsOf client repository)
           (built conn w)) e ->
      outcome (ListBranches E client ctx owner repository) w
      = Returned ([], Some e)) /\
     (answers_error
        (git_CreatePullRequest gitClient ctx
           (createPullRequestArgsOf U client repository sourceBranch
              targetBranch title description)
           (logged Debug ["creating new pull request:"; title] (built conn w)))
        e ->
      outcome (CreatePullRequest U E client ctx owner repository sourceBranch
                 targetBranch title description) w = Returned (Some e)) /\
     (answers_error
        (git_CreateThread gitClient ctx
           (createThreadArgsOf client repository content pullRequestID)
           (built conn w)) e ->
      outcome (AddPullRequestComment E client ctx owner repository content
                 pullRequestID) w = Returned (Some e)) /\
     (answers_error
        (git_GetThreads gitClient ctx
           (getThreadsArgsOf client repository pullRequestID) (built conn w))
        e ->
      outcome (ListPullRequestComments E client ctx owner repository
                 pullRequestID) w = Returned ([], Some e)) /\
     (answers_error
        (git_GetPullRequests gitClient ctx
           (getPullRequestsArgsOf client repository)
           (logged Debug ["fetching open pull requests in"; repository]
              (built conn w))) e ->
      outcome (ListOpenPullRequests U E client ctx owner repository) w
      = Returned ([], Some e)) /\
     (answers_error
        (git_GetCommits gitClient ctx
           (getCommitsArgsOf client repository branch) (built conn w)) e ->
      outcome (GetLatestCommit U E client ctx owner repository branch) w
      = Returned (zero, Some e))).
Proof.
  intros Hconn. split; [| split].
  - intros H. unfold TestConnection. rewrite Hconn. go_step.
    use_answer H. reflexivity.
  - intros H.
    unfold ListRepositories, ListBranches, CreatePullRequest,
      AddPullRequestComment, ListPullRequestComments, ListOpenPullRequests,
      GetLatestCommit.
    go_step. rewrite Hconn. use_answer H. repeat split.
  - intros gitClient Hbuild.
    unfold ListRepositories, ListBranches, CreatePullRequest,
      AddPullRequestComment, ListPullRequestComments, ListOpenPullRequests,
      GetLatestCommit, built, logged, getBranchesArgsOf,
      createPullRequestArgsOf, createThreadArgsOf, getThreadsArgsOf,
      getPullRequestsArgsOf, getCommitsArgsOf.
    go_step. rewrite Hconn, Hbuild.
    repeat split; intros H; use_answer H; reflexivity.
Qed.

Lemma provider_errors_are_returned_unchanged_witness :
  outcome (TestConnection unauthorizedEnv sampleClient ctx0) world0
  = Returned (Some unauthorized) /\
  outcome (ListBranches unauthorizedEnv sampleClient ctx0 "owner" "repo")
          world0
  = Returned ([], Some unauthorized).
Proof.
  destruct (provider_errors_are_returned_unchanged sampleUtils unauthorizedEnv
              sampleClient ctx0
              {| BaseUrl := "https://dev.azure.com/org";
                 AuthorizationString := "Basic OnBhdA==" |}
              world0 unauthorized "owner" "repo" "main" "feature" "main"
              "title" "description" "content" 7 eq_refl)
    as [Htest [_ Hcalls]].
  split.
  - apply Htest. reflexivity.
  - destruct (Hcalls (refusingClient unauthorized) eq_refl)
      as [_ [Hbranches _]].
    apply Hbranches. reflexivity.
Defined.

(* --------------------------------------------------------------------- *)
(** *** ListPullRequestComments *)
(* --------------------------------------------------------------------- *)

(** A loop whose body, on the elements at hand, only computes: it neither
    panics, nor returns early, nor touches the world. *)
Lemma for_range_computes {A S R : Type} (body : A -> S -> Go (S + R))
  (step : S -> A -> S) (ok : A -> bool) (xs : list A) :
  (forall x s w, ok x = true -> body x s w = (Returned (inl (step s x)), w)) ->
  forallb ok xs = true ->
  forall s w, for_range xs body s w = (Returned (inl (foldl step s xs)), w).
Proof.
  intros Hbody. induction xs as [|x rest IH]; intros Hok s w.
  - reflexivity.
  - simpl in Hok. apply andb_prop in Hok as [Hx Hrest].
    simpl. cbv [mbind Go_bind]. rewrite (Hbody x s w Hx).
    apply IH. exact Hrest.
Qed.

Lemma foldl_lines (comments : list Comment) (acc : string) :
  foldl (fun agg c => agg +:+ lineOf c) acc comments
  = acc +:+ concat_lines (map lineOf comments).
Proof.
  revert acc. induction comments as [|c rest IH]; intros acc; simpl.
  - symmetry. apply append_empty_r.
  - rewrite IH. apply append_assoc.
Qed.

Lemma foldl_snoc_map {A B : Type} (f : A -> B) (xs : list A) (acc : list B) :
  foldl (fun acc x => acc ++ [f x]) acc xs = acc ++ map f xs.
Proof.
  revert acc. induction xs as [|x rest IH]; intros acc; simpl.
  - symmetry. apply app_nil_r.
  - rewrite IH, <- app_assoc. reflexivity.
Qed.

Lemma comment_populated_line (c : Comment) :
  comment_populated c = true -> comment_line c (lineOf c).
Proof.
  unfold comment_populated, lineOf, commentLine.
  destruct c as [[[[name|]]|] [content|] [id|]]; simpl;
    try discriminate; intros _.
  econstructor; reflexivity.
Qed.

Lemma thread_populated_flattens (t : GitPullRequestCommentThread) :
  thread_populated t = true -> thread_flattens t (flattenThread t).
Proof.
  unfold thread_populated, thread_flattens, flattenThread.
  destruct t as [[comments|] [id|] [date|]]; simpl;
    rewrite ?andb_false_r; try discriminate.
  rewrite !andb_true_r. intros Hcomments.
  repeat split. exists comments, (map lineOf comments). repeat split.
  induction comments as [|c rest IH]; simpl in *.
  - constructor.
  - apply andb_prop in Hcomments as [Hc Hrest].
    constructor; [apply comment_populated_line; exact Hc | apply IH; exact Hrest].
Qed.

(** A loop whose body computes on the elements that are in order and panics
    on the others, without touching the world. *)
Lemma for_range_computes_or_panics {A S R : Type}
  (body : A -> S -> Go (S + R)) (step : S -> A -> S) (ok : A -> bool)
  (xs : list A) :
  (forall x s w, ok x = true -> body x s w = (Returned (inl (step s x)), w)) ->
  (forall x s w, ok x = false -> body x s w = (Panicked nilDereference, w)) ->
  forall s w,
    for_range xs body s w
    = if forallb ok xs then (Returned (inl (foldl step s xs)), w)
      else (Panicked nilDereference, w).
Proof.
  intros Hok Hbad. induction xs as [|x rest IH]; intros s w.
  - reflexivity.
  - simpl. cbv [mbind Go_bind]. destruct (ok x) eqn:Hx; simpl.
    + rewrite (Hok x s w Hx). apply IH.
    + rewrite (Hbad x s w Hx). reflexivity.
Qed.

Lemma Exists_forallb_false {A : Type} (ok : A -> bool) (xs : list A) :
  Exists (fun x => ok x = false) xs -> forallb ok xs = false.
Proof.
  induction 1 as [x rest Hx | x rest _ IH]; simpl.
  - rewrite Hx. reflexivity.
  - rewrite IH. apply andb_false_r.
Qed.

(** When the provider answers with populated threads, the call returns
    their images, thread by thread, and no error. *)
Lemma ListPullRequestComments_maps_threads (E : Env)
  (client : AzureReposClient) (ctx : Context) (owner repository : string)
  (pullRequestID : Z) (conn : Connection) (gitClient : git_Client)
  (threads : list GitPullRequestCommentThread) (w : World) :
  connectionDetails client = Some conn ->
  git_NewClient E ctx conn w = (Some gitClient, None) ->
  git_GetThreads gitClient ctx
    (getThreadsArgsOf client repository pullRequestID) (built conn w)
  = (Some threads, None) ->
  forallb thread_populated threads = true ->
  outcome (ListPullRequestComments E client ctx owner repository pullRequestID)
          w
  = Returned (map flattenThread threads, None).
Proof.
  intros Hconn Hbuild Hthreads Hpop.
  unfold ListPullRequestComments, getThreadsArgsOf, built in *.
  go_step. rewrite Hconn, Hbuild, Hthreads.
  erewrite (for_range_computes _ (fun acc t => acc ++ [flattenThread t])
              thread_populated); [| | exact Hpop].
  - rewrite foldl_snoc_map. reflexivity.
  - intros t acc w' Ht.
    unfold thread_populated in Ht.
    destruct t as [[comments|] [id|] [date|]]; simpl in Ht;
      rewrite ?andb_false_r in Ht; try discriminate.
    rewrite !andb_true_r in Ht. simpl.
    erewrite (for_range_computes _ (fun agg c => agg +:+ lineOf c)
                comment_populated); [| | exact Ht].
    + rewrite foldl_lines. reflexivity.
    + intros c agg w'' Hc. unfold comment_populated in Hc.
      destruct c as [[[[name|]]|] [content|] [cid|]]; simpl in Hc;
        try discriminate.
      reflexivity.
Qed.

Example ListPullRequestComments_ABC :
  outcome (ListPullRequestComments (threadsEnv [threadA; threadB; threadC])
             sampleClient ctx0 "owner" "repo" 7) world0
  = Returned
      ([ {| ID := 11;
            Content := "Author: Ann, Id: 1, Content:first" +:+ newline +:+
                       "Author: Bob, Id: 2, Content:reply" +:+ newline;
            Created := {| Unix := 1000; Nanosecond := 0 |} |};
         {| ID := 12;
            Content := "Author: Bob, Id: 1, Content:second" +:+ newline;
            Created := {| Unix := 2000; Nanosecond := 0 |} |};
         {| ID := 13;
            Content := EmptyString;
            Created := {| Unix := 3000; Nanosecond := 500 |} |} ],
       None).
Proof. vm_compute. reflexivity. Qed.

(** What [ListPullRequestComments] does once the client is built and the
    provider has answered: it returns the images of all the threads, or it
    panics at the first field that is nil. *)
Lemma ListPullRequestComments_answered (E : Env)
  (client : AzureReposClient) (ctx : Context) (owner repository : string)
  (pullRequestID : Z) (conn : Connection) (gitClient : git_Client)
  (threads : list GitPullRequestCommentThread) (w : World) :
  connectionDetails client = Some conn ->
  git_NewClient E ctx conn w = (Some gitClient, None) ->
  git_GetThreads gitClient ctx
    (getThreadsArgsOf client repository pullRequestID) (built conn w)
  = (Some threads, None) ->
  outcome (ListPullRequestComments E client ctx owner repository pullRequestID)
          w
  = if forallb thread_populated threads
    then Returned (map flattenThread threads, None)
    else Panicked nilDereference.
Proof.
  intros Hconn Hbuild Hthreads.
  destruct (forallb thread_populated threads) eqn:Hpop.
  { eapply ListPullRequestComments_maps_threads; eassumption. }
  unfold ListPullRequestComments, getThreadsArgsOf, built in *.
  go_step. rewrite Hconn, Hbuild, Hthreads.
  erewrite (for_range_computes_or_panics _
              (fun acc t => acc ++ [flattenThread t]) thread_populated).
  - rewrite Hpop. reflexivity.
  - intros t acc w' Ht.
    unfold thread_populated in Ht.
    destruct t as [[comments|] [id|] [date|]]; simpl in Ht;
      rewrite ?andb_false_r in Ht; try discriminate.
    rewrite !andb_true_r in Ht. simpl.
    erewrite (for_range_computes _ (fun agg c => agg +:+ lineOf c)
                comment_populated); [| | exact Ht].
    + rewrite foldl_lines. reflexivity.
    + intros c agg w'' Hc. unfold comment_populated in Hc.
      destruct c as [[[[name|]]|] [content|] [cid|]]; simpl in Hc;
        try discriminate.
      reflexivity.
  - intros t acc w' Ht.
    unfold thread_populated in Ht.
    destruct t as [[comments|] id date]; simpl in *; [| reflexivity].
    erewrite (for_range_computes_or_panics _ (fun agg c => agg +:+ lineOf c)
                comment_populated).
    + destruct (forallb comment_populated comments); simpl in *;
        [| reflexivity].
      destruct id as [id|]; simpl in *; [| reflexivity].
      destruct date as [date|]; simpl in *; [discriminate | reflexivity].
    + intros c agg w'' Hc. unfold comment_populated in Hc.
      destruct c as [[[[name|]]|] [content|] [cid|]]; simpl in Hc;
        try discriminate.
      reflexivity.
    + intros c agg w'' Hc. unfold comment_populated in Hc.
      destruct c as [[[[name|]]|] [content|] [cid|]]; simpl in Hc;
        try discriminate; reflexivity.
Qed.





Lemma populated_ids (threads : list GitPullRequestCommentThread) :
  forallb thread_populated threads = true ->
  map Thread_Id threads
  = map (fun info => Some (ID info)) (map flattenThread threads) /\
  map Thread_PublishedDate threads
  = map (fun info => Some (Created info)) (map flattenThread threads) /\
  omap Thread_PublishedDate threads = map Created (map flattenThread threads).
Proof.
  induction threads as [|t rest IH]; intros Hpop.
  - repeat split.
  - apply andb_prop in Hpop as [Ht Hrest].
    destruct (IH Hrest) as [Hid [Hdate Hdates]].
    apply thread_populated_flattens in Ht as [Htid [Htdate _]].
    repeat split.
    + rewrite !map_cons, Hid, Htid. reflexivity.
    + rewrite !map_cons, Hdate, Htdate. reflexivity.
    + rewrite !map_cons, <- Hdates. simpl. rewrite Htdate. reflexivity.
Qed.

(** C7 (as stated, it fails). The provider lists the later thread first:
    the call returns the two in that order, the newest first. *)
Lemma ListPullRequestComments_does_not_sort :
  ~ (forall (E : Env) (client : AzureReposClient) (ctx : Context)
            (owner repository : string) (pullRequestID : Z) (w : World)
            (commentInfo : list CommentInfo),
       outcome (ListPullRequestComments E client ctx owner repository
                  pullRequestID) w
       = Returned (commentInfo, None) ->
       oldest_first (map Created commentInfo)).
Proof.
  intros H.
  assert (Hsorted : oldest_first
                      (map Created (map flattenThread [threadB; threadA]))).
  { apply (H (threadsEnv [threadB; threadA]) sampleClient ctx0 "owner" "repo"
             7 world0).
    vm_compute. reflexivity. }
  specialize (Hsorted 0%nat 1%nat
                {| Unix := 2000; Nanosecond := 0 |}
                {| Unix := 1000; Nanosecond := 0 |}
                (Nat.le_succ_diag_r 0) eq_refl eq_refl).
  unfold not_after in Hsorted. simpl in Hsorted. lia.
Qed.

(** C7 (amended). The call keeps the order in which the provider lists the
    threads and sorts nothing: whenever it returns on an answer of the
    provider, it returns no error, and the i-th [CommentInfo] carries the
    id and the published date of the i-th thread, so that the result is
    oldest first exactly when the provider's list is.  It does return when
    the threads of the answer have the fields the backend reads; and on an
    answer without threads it returns the empty sequence and a nil
    error. *)
Theorem ListPullRequestComments_keeps_provider_order (E : Env)
  (client : AzureReposClient) (ctx : Context) (owner repository : string)
  (pullRequestID : Z) (conn : Connection) (gitClient : git_Client)
  (threads : list GitPullRequestCommentThread) (w : World) :
  connectionDetails client = Some conn ->
  git_NewClient E ctx conn w = (Some gitClient, None) ->
  git_GetThreads gitClient ctx
    (getThreadsArgsOf client repository pullRequestID) (built conn w)
  = (Some threads, None) ->
  (threads = [] ->
   outcome (ListPullRequestComments E client ctx owner repository
              pullRequestID) w
   = Returned ([], None)) /\
  (forallb thread_populated threads = true ->
   exists commentInfo : list CommentInfo,
     outcome (ListPullRequestComments E client ctx owner repository
                pullRequestID) w
     = Returned (commentInfo, None)) /\
  (forall (commentInfo : list CommentInfo) (err : option error),
     outcome (ListPullRequestComments E client ctx owner repository
                pullRequestID) w
     = Returned (commentInfo, err) ->
     err = None /\
     map Thread_Id threads = map (fun info => Some (ID info)) commentInfo /\
     map Thread_PublishedDate threads
     = map (fun info => Some (Created info)) commentInfo /\
     (oldest_first (map Created commentInfo) <->
      oldest_first (omap Thread_PublishedDate threads))).
Proof.
  intros Hconn Hbuild Hthreads.
  rewrite (ListPullRequestComments_answered E client ctx owner repository
             pullRequestID conn gitClient threads w Hconn Hbuild Hthreads).
  split; [| split].
  - intros ->. reflexivity.
  - intros Hpop. rewrite Hpop. eauto.
  - intros commentInfo err Hret.
    destruct (forallb thread_populated threads) eqn:Hpop;
      [| discriminate Hret].
    injection Hret as <- <-.
    destruct (populated_ids threads Hpop) as [Hid [Hdate Hdates]].
    split; [reflexivity |]. split; [exact Hid |]. split; [exact Hdate |].
    rewrite Hdates. reflexivity.
Qed.

Lemma oldest_first_ABC :
  oldest_first (omap Thread_PublishedDate [threadA; threadB; threadC]).
Proof.
  intros i j a b Hij Hi Hj.
  destruct i as [|[|[|i]]]; destruct j as [|[|[|j]]];
    simpl in Hi, Hj; try discriminate; try lia;
    injection Hi as <-; injection Hj as <-; unfold not_after; simpl; lia.
Qed.

Lemma ListPullRequestComments_keeps_provider_order_witness :
  exists commentInfo : list CommentInfo,
    outcome (ListPullRequestComments (threadsEnv [threadA; threadB; threadC])
               sampleClient ctx0 "owner" "repo" 7) world0
    = Returned (commentInfo, None) /\
    map ID commentInfo = [11; 12; 13] /\
    oldest_first (map Created commentInfo).
Proof.
  destruct (ListPullRequestComments_keeps_provider_order
              (threadsEnv [threadA; threadB; threadC]) sampleClient ctx0
              "owner" "repo" 7 sampleConnection
              (cannedClient [] [threadA; threadB; threadC] [])
              [threadA; threadB; threadC] world0
              eq_refl eq_refl eq_refl)
    as [_ [Hreturns Horder]].
  destruct (Hreturns eq_refl) as [commentInfo Hout].
  destruct (Horder commentInfo None Hout) as [_ [Hid [_ Hsorted]]].
  exists commentInfo. split; [exact Hout | split].
  - destruct commentInfo as [|a [|b [|c [|d rest]]]]; try discriminate Hid.
    simpl in Hid. injection Hid as Ha Hb Hc.
    simpl. congruence.
  - apply Hsorted. exact oldest_first_ABC.
Defined.

Example ListPullRequestComments_no_threads :
  outcome (ListPullRequestComments (threadsEnv []) sampleClient ctx0
             "owner" "repo" 7) world0
  = Returned ([], None).
Proof. vm_compute. reflexivity. Qed.

(* --------------------------------------------------------------------- *)
(** *** GetLatestCommit *)
(* --------------------------------------------------------------------- *)

Example GetLatestCommit_head :
  outcome (GetLatestCommit sampleUtils (commitsEnv [headCommit; olderCommit])
             sampleClient ctx0 "owner" "repo" "main") world0
  = Returned
      ({| Hash := "86d6919952702f9ab03bc95b45687f145a663de0";
          AuthorName := "Ann";
          CommitterName := "Bob";
          Url := "https://dev.azure.com/org/proj/_apis/git/commits/86d6";
          Timestamp := 2000;
          Message := "Updated README.md";
          ParentHashes := ["f1d2d2f924e986ac86fdf7b36c94bcdf32beec15"] |},
       None).
Proof. vm_compute. reflexivity. Qed.





(** C6. Whenever the call returns on a branch that has commits, the
    [Timestamp] of the result is the date of the committer of the first
    commit, in seconds since the epoch; the author's date plays no part. *)
Theorem GetLatestCommit_timestamp_is_committer_time (U : vcsutils) (E : Env)
  (client : AzureReposClient) (ctx : Context)
  (owner repository branch : string) (conn : Connection)
  (gitClient : git_Client) (latestCommit : GitCommitRef)
  (rest : list GitCommitRef) (w : World) (info : CommitInfo)
  (err : option error) :
  connectionDetails client = Some conn ->
  git_NewClient E ctx conn w = (Some gitClient, None) ->
  git_GetCommits gitClient ctx (getCommitsArgsOf client repository branch)
                 (built conn w)
  = (Some (latestCommit :: rest), None) ->
  outcome (GetLatestCommit U E client ctx owner repository branch) w
  = Returned (info, err) ->
  err = None /\
  exists (committer : GitUserDate) (date : Time),
    Commit_Committer latestCommit = Some committer /\
    User_Date committer = Some date /\
    Timestamp info = Unix date.
Proof.
  intros Hconn Hbuild Hcommits.
  unfold GetLatestCommit, getCommitsArgsOf, built in *.
  go_step. rewrite Hconn, Hbuild, Hcommits.
  destruct (Commit_Author latestCommit) as [author|]; [| discriminate].
  destruct (Commit_Committer latestCommit) as [committer|]; [| discriminate].
  destruct (User_Date committer) as [date|] eqn:Hdate; [| discriminate].
  simpl. intros Hret. injection Hret as <- <-.
  split; [reflexivity |]. exists committer, date. repeat split. exact Hdate.
Qed.

Lemma GetLatestCommit_timestamp_is_committer_time_witness :
  exists (committer : GitUserDate) (date : Time),
    Commit_Committer headCommit = Some committer /\
    User_Date committer = Some date /\
    2000 = Unix date.
Proof.
  apply (GetLatestCommit_timestamp_is_committer_time sampleUtils
           (commitsEnv [headCommit; olderCommit]) sampleClient ctx0
           "owner" "repo" "main" sampleConnection
           (cannedClient [] [] [headCommit; olderCommit])
           headCommit [olderCommit] world0
           {| Hash := "86d6919952702f9ab03bc95b45687f145a663de0";
              AuthorName := "Ann";
              CommitterName := "Bob";
              Url := "https://dev.azure.com/org/proj/_apis/git/commits/86d6";
              Timestamp := 2000;
              Message := "Updated README.md";
              ParentHashes := ["f1d2d2f924e986ac86fdf7b36c94bcdf32beec15"] |}
           None eq_refl eq_refl eq_refl eq_refl).
Defined.

(* --------------------------------------------------------------------- *)
(** *** ListRepositories *)
(* --------------------------------------------------------------------- *)

(** A loop that reads one pointer per element and only computes: it panics
    at the first nil pointer and otherwise folds the values read. *)
Lemma for_each_reads {A B S : Type} (body : A -> S -> Go S)
  (field : A -> option B) (step : S -> B -> S) (xs : list A) :
  (forall x s w,
     body x s w = match field x with
                  | Some b => (Returned (step s b), w)
                  | None => (Panicked nilDereference, w)
                  end) ->
  forall s w,
    for_each xs body s w
    = match mapM field xs with
      | Some ys => (Returned (foldl step s ys), w)
      | None => (Panicked nilDereference, w)
      end.
Proof.
  intros Hbody. induction xs as [|x rest IH]; intros s w.
  - reflexivity.
  - simpl for_each. cbv [mbind Go_bind]. rewrite Hbody.
    change (mapM field (x :: rest))
      with (field x ≫= fun y => mapM field rest ≫= fun k => mret (y :: k)).
    destruct (field x) as [b|]; simpl.
    + rewrite IH. destruct (mapM field rest) as [ys|]; reflexivity.
    + reflexivity.
Qed.

Lemma foldl_addRepository (project : string) (names : list string)
  (first : string) (earlier : list string) (m : gmap string (list string)) :
  foldl (addRepository project) (<[project := earlier ++ [first]]> m) names
  = <[project := earlier ++ first :: names]> m.
Proof.
  revert first earlier. induction names as [|n rest IH]; intros first earlier.
  - reflexivity.
  - simpl. unfold addRepository at 2.
    rewrite lookup_insert_eq, insert_insert_eq. simpl.
    rewrite IH, <- app_assoc. reflexivity.
Qed.

Lemma foldl_addRepository_empty (project : string) (names : list string) :
  foldl (addRepository project) ∅ names = repositoriesOf project names.
Proof.
  destruct names as [|first rest]; [reflexivity |].
  simpl. unfold addRepository at 2. rewrite lookup_empty. simpl.
  rewrite (foldl_addRepository project rest first [] ∅). reflexivity.
Qed.

Example ListRepositories_two :
  outcome (ListRepositories
             (repositoriesEnv [ {| Repo_Name := Some "froggit" |};
                                {| Repo_Name := Some "cli" |} ])
             sampleClient ctx0) world0
  = Returned (Some {[ "proj" := ["froggit"; "cli"] ]}, None).
Proof.
  unfold outcome, ListRepositories. simpl. go_step. simpl. reflexivity.
Qed.

(** What [ListRepositories] does once the client is built and the provider
    has answered. *)
Lemma ListRepositories_answered (E : Env) (client : AzureReposClient)
  (ctx : Context) (conn : Connection) (gitClient : git_Client)
  (repos : list GitRepository) (w : World) :
  connectionDetails client = Some conn ->
  git_NewClient E ctx conn w = (Some gitClient, None) ->
  git_GetRepositories gitClient ctx
    {| GR_Project := Project (vcsInfo client) |} (built conn w)
  = (Some repos, None) ->
  outcome (ListRepositories E client ctx) w
  = match mapM Repo_Name repos with
    | Some names =>
        Returned (Some (repositoriesOf (Project (vcsInfo client)) names), None)
    | None => Panicked nilDereference
    end.
Proof.
  intros Hconn Hbuild Hrepos. unfold ListRepositories, built in *.
  go_step. rewrite Hconn, Hbuild, Hrepos.
  erewrite (for_each_reads _ Repo_Name
              (addRepository (Project (vcsInfo client)))).
  - destruct (mapM Repo_Name repos) as [names|]; [| reflexivity].
    rewrite foldl_addRepository_empty. reflexivity.
  - intros repo m w'. destruct (Repo_Name repo); reflexivity.
Qed.

(** C9. Every call that returns without error has been answered by the
    provider with a list of repositories, and returns the map that sends
    the project of the connection descriptor to the names of these
    repositories in the provider's order; that map is empty when the list
    is.  Such calls exist: whenever the provider answers with repositories
    that have names, the call returns that map and a nil error.  In
    particular, when the provider answers that the project has no
    repository, the call returns the empty (non-nil) map and a nil
    error. *)
Theorem ListRepositories_maps_project_to_names (E : Env)
  (client : AzureReposClient) (ctx : Context) (w : World) :
  (forall m : option (gmap string (list string)),
     outcome (ListRepositories E client ctx) w = Returned (m, None) ->
     exists (conn : Connection) (gitClient : git_Client)
            (repos : list GitRepository) (names : list string),
       connectionDetails client = Some conn /\
       git_NewClient E ctx conn w = (Some gitClient, None) /\
       git_GetRepositories gitClient ctx
         {| GR_Project := Project (vcsInfo client) |} (built conn w)
       = (Some repos, None) /\
       Forall2 (fun repo name => Repo_Name repo = Some name) repos names /\
       m = Some (match names with
                 | [] => ∅
                 | _ :: _ => {[ Project (vcsInfo client) := names ]}
                 end)) /\
  (forall (conn : Connection) (gitClient : git_Client)
          (repos : list GitRepository) (names : list string),
     connectionDetails client = Some conn ->
     git_NewClient E ctx conn w = (Some gitClient, None) ->
     git_GetRepositories gitClient ctx
       {| GR_Project := Project (vcsInfo client) |} (built conn w)
     = (Some repos, None) ->
     Forall2 (fun repo name => Repo_Name repo = Some name) repos names ->
     outcome (ListRepositories E client ctx) w
     = Returned (Some (match names with
                       | [] => ∅
                       | _ :: _ => {[ Project (vcsInfo client) := names ]}
                       end), None)) /\
  (forall (conn : Connection) (gitClient : git_Client),
     connectionDetails client = Some conn ->
     git_NewClient E ctx conn w = (Some gitClient, None) ->
     git_GetRepositories gitClient ctx
       {| GR_Project := Project (vcsInfo client) |} (built conn w)
     = (Some [], None) ->
     outcome (ListRepositories E client ctx) w = Returned (Some ∅, None)).
Proof.
  split; [| split].
  - intros m Hret.
    destruct (connectionDetails client) as [conn|] eqn:Hconn.
    + destruct (git_NewClient E ctx conn w) as [[gitClient|] [e|]] eqn:Hbuild.
      * unfold ListRepositories in Hret. go_step.
        rewrite Hconn, Hbuild in Hret. discriminate Hret.
      * destruct (git_GetRepositories gitClient ctx
                    {| GR_Project := Project (vcsInfo client) |} (built conn w))
          as [[repos|] [e|]] eqn:Hrepos.
        -- unfold ListRepositories, built in *. go_step.
           rewrite Hconn, Hbuild, Hrepos in Hret. discriminate Hret.
        -- rewrite (ListRepositories_answered E client ctx conn gitClient repos
                      w Hconn Hbuild Hrepos) in Hret.
           destruct (mapM Repo_Name repos) as [names|] eqn:Hnames;
             [| discriminate Hret].
           injection Hret as <-.
           exists conn, gitClient, repos, names.
           split; [reflexivity |]. split; [exact Hbuild |].
           split; [exact Hrepos |]. split; [| reflexivity].
           apply mapM_Some. exact Hnames.
        -- unfold ListRepositories, built in *. go_step.
           rewrite Hconn, Hbuild, Hrepos in Hret. discriminate Hret.
        -- unfold ListRepositories, built in *. go_step.
           rewrite Hconn, Hbuild, Hrepos in Hret. discriminate Hret.
      * unfold ListRepositories in Hret. go_step.
        rewrite Hconn, Hbuild in Hret. discriminate Hret.
      * unfold ListRepositories in Hret. go_step.
        rewrite Hconn, Hbuild in Hret. discriminate Hret.
    + unfold ListRepositories in Hret. go_step.
      rewrite Hconn in Hret. discriminate Hret.
  - intros conn gitClient repos names Hconn Hbuild Hrepos Hnames.
    rewrite (ListRepositories_answered E client ctx conn gitClient repos w
               Hconn Hbuild Hrepos).
    apply mapM_Some in Hnames. rewrite Hnames. reflexivity.
  - intros conn gitClient Hconn Hbuild Hrepos.
    rewrite (ListRepositories_answered E client ctx conn gitClient [] w
               Hconn Hbuild Hrepos).
    reflexivity.
Qed.

Lemma ListRepositories_maps_project_to_names_witness :
  outcome (ListRepositories (repositoriesEnv []) sampleClient ctx0) world0
  = Returned (Some ∅, None) /\
  outcome (ListRepositories
             (repositoriesEnv [ {| Repo_Name := Some "froggit" |};
                                {| Repo_Name := Some "cli" |} ])
             sampleClient ctx0) world0
  = Returned (Some {[ "proj" := ["froggit"; "cli"] ]}, None).
Proof.
  split.
  - destruct (ListRepositories_maps_project_to_names (repositoriesEnv [])
                sampleClient ctx0 world0) as [_ [_ Hempty]].
    apply (Hempty sampleConnection (cannedClient [] [] []));
      reflexivity.
  - destruct (ListRepositories_maps_project_to_names
                (repositoriesEnv [ {| Repo_Name := Some "froggit" |};
                                   {| Repo_Name := Some "cli" |} ])
                sampleClient ctx0 world0) as [_ [Hanswered _]].
    apply (Hanswered sampleConnection
             (cannedClient [ {| Repo_Name := Some "froggit" |};
                             {| Repo_Name := Some "cli" |} ] [] [])
             [ {| Repo_Name := Some "froggit" |}; {| Repo_Name := Some "cli" |} ]
             ["froggit"; "cli"]);
      try reflexivity.
    repeat constructor.
Defined.

(* --------------------------------------------------------------------- *)
(** *** CreatePullRequest *)
(* --------------------------------------------------------------------- *)

(** C8 (as stated, it fails). With a provider that accepts the request, a
    pull request from a branch onto itself is created and the call returns
    a nil error: nothing in the backend looks at the branches. *)
Lemma CreatePullRequest_identical_branches_not_rejected :
  ~ (forall (U : vcsutils) (E : Env) (client : AzureReposClient)
            (ctx : Context) (owner repository branch title description : string)
            (w : World),
       exists e : error,
         outcome (CreatePullRequest U E client ctx owner repository
                    branch branch title description) w
         = Returned (Some e)).
Proof.
  intros H.
  destruct (H sampleUtils acceptingEnv sampleClient ctx0 "owner" "repo"
              "main" "title" "description" world0) as [e He].
  discriminate He.
Qed.

Lemma createRequestsSent_record (ev : Event) (w : World) :
  createRequestsSent (record_event ev w)
  = createRequestsSent w
    ++ match ev with
       | EvCreatePullRequest args => [args]
       | _ => []
       end.
Proof.
  unfold createRequestsSent, record_event. simpl.
  rewrite omap_app. f_equal. destruct ev; reflexivity.
Qed.

(** C8 (amended). Once the SDK client is built, the call sends the provider
    one create request, carrying the two branch names as [AddBranchPrefix]
    gives them, the title, the description, the repository and the project
    of the connection descriptor; it returns the error the provider
    answers, whatever the branches are, and nothing else; and each call
    sends its own request, so that two identical calls send two. *)
Theorem CreatePullRequest_forwards_to_provider (U : vcsutils) (E : Env)
  (client : AzureReposClient) (ctx : Context)
  (owner repository sourceBranch targetBranch title description : string)
  (conn : Connection) (gitClient : git_Client) (w : World) :
  connectionDetails client = Some conn ->
  git_NewClient E ctx conn w = (Some gitClient, None) ->
  let call := CreatePullRequest U E client ctx owner repository sourceBranch
                                targetBranch title description in
  let args := createPullRequestArgsOf U client repository sourceBranch
                                      targetBranch title description in
  outcome call w
  = Returned
      (git_CreatePullRequest gitClient ctx args
         (logged Debug ["creating new pull request:"; title] (built conn w))).2
  /\
  createRequestsSent (world_after call w) = createRequestsSent w ++ [args] /\
  (forall gitClient' : git_Client,
     git_NewClient E ctx conn (world_after call w) = (Some gitClient', None) ->
     createRequestsSent (world_after call (world_after call w))
     = createRequestsSent w ++ [args; args]).
Proof.
  intros Hconn Hbuild call args.
  assert (Hsent : forall w0 gitClient0,
             git_NewClient E ctx conn w0 = (Some gitClient0, None) ->
             createRequestsSent (world_after call w0)
             = createRequestsSent w0 ++ [args]).
  { intros w0 gitClient0 Hbuild0. subst call args.
    unfold CreatePullRequest, createPullRequestArgsOf.
    go_step. rewrite Hconn, Hbuild0.
    destruct (git_CreatePullRequest gitClient0 _ _ _) as [pr err]. simpl.
    rewrite !createRequestsSent_record, !app_nil_r. reflexivity. }
  split; [| split].
  - subst call args.
    unfold CreatePullRequest, createPullRequestArgsOf, logged, built.
    go_step. rewrite Hconn, Hbuild.
    destruct (git_CreatePullRequest gitClient _ _ _) as [pr err]. reflexivity.
  - apply (Hsent w gitClient Hbuild).
  - intros gitClient' Hbuild'.
    rewrite (Hsent _ gitClient' Hbuild'), (Hsent w gitClient Hbuild).
    rewrite <- app_assoc. reflexivity.
Qed.

Lemma CreatePullRequest_forwards_to_provider_witness :
  outcome (CreatePullRequest sampleUtils acceptingEnv sampleClient ctx0
             "owner" "repo" "main" "main" "title" "description") world0
  = Returned None /\
  createRequestsSent
    (world_after (CreatePullRequest sampleUtils acceptingEnv sampleClient ctx0
                    "owner" "repo" "main" "main" "title" "description")
       (world_after (CreatePullRequest sampleUtils acceptingEnv sampleClient
                       ctx0 "owner" "repo" "main" "main" "title" "description")
          world0))
  = [ createPullRequestArgsOf sampleUtils sampleClient "repo" "main" "main"
        "title" "description";
      createPullRequestArgsOf sampleUtils sampleClient "repo" "main" "main"
        "title" "description" ].
Proof.
  destruct (CreatePullRequest_forwards_to_provider sampleUtils acceptingEnv
              sampleClient ctx0 "owner" "repo" "main" "main" "title"
              "description" sampleConnection (cannedClient [] [] []) world0
              eq_refl eq_refl) as [Hout [_ Htwice]].
  split.
  - exact Hout.
  - apply (Htwice (cannedClient [] [] [])). reflexivity.
Defined.

(* --------------------------------------------------------------------- *)
(** *** The owner argument *)
(* --------------------------------------------------------------------- *)

Section AsksOnly.

Context (project : string).

Lemma asks_ret {A : Type} (a : A) : asks_only project (mret a).
Proof. intros w. exists []. split; [symmetry; apply app_nil_r | constructor]. Qed.

Lemma asks_panic {A : Type} (r : string) : asks_only project (@panic A r).
Proof. intros w. exists []. split; [symmetry; apply app_nil_r | constructor]. Qed.

Lemma asks_deref {A : Type} (p : option A) : asks_only project (deref p).
Proof. destruct p; [apply asks_ret | apply asks_panic]. Qed.

Lemma asks_extern {A : Type} (ev : Event) (answer : World -> A) :
  names_project project ev -> asks_only project (extern ev answer).
Proof. intros Hev w. exists [ev]. split; [reflexivity | repeat constructor; exact Hev]. Qed.

Lemma asks_emit (ev : Event) :
  names_project project ev -> asks_only project (emit ev).
Proof. intros Hev w. exists [ev]. split; [reflexivity | repeat constructor; exact Hev]. Qed.

Lemma asks_bind {A B : Type} (m : Go A) (k : A -> Go B) :
  asks_only project m -> (forall a, asks_only project (k a)) ->
  asks_only project (m ≫= k).
Proof.
  intros Hm Hk w. destruct (Hm w) as [evs1 [Htrace1 Hevs1]].
  unfold world_after in *. cbv [mbind Go_bind].
  destruct (m w) as [[a|r] w1]; simpl in *.
  - destruct (Hk a w1) as [evs2 [Htrace2 Hevs2]].
    unfold world_after in Htrace2.
    exists (evs1 ++ evs2). split.
    + rewrite Htrace2, Htrace1, app_assoc. reflexivity.
    + apply Forall_app. split; assumption.
  - exists evs1. split; assumption.
Qed.

Lemma asks_for_each {A S : Type} (body : A -> S -> Go S) (xs : list A) :
  (forall x s, asks_only project (body x s)) ->
  forall s, asks_only project (for_each xs body s).
Proof.
  intros Hbody. induction xs as [|x rest IH]; intros s; simpl.
  - apply asks_ret.
  - apply asks_bind; [apply Hbody | intros s'; apply IH].
Qed.

Lemma asks_for_range {A S R : Type} (body : A -> S -> Go (S + R))
  (xs : list A) :
  (forall x s, asks_only project (body x s)) ->
  forall s, asks_only project (for_range xs body s).
Proof.
  intros Hbody. induction xs as [|x rest IH]; intros s; simpl.
  - apply asks_ret.
  - apply asks_bind; [apply Hbody |].
    intros [s'|res]; [apply IH | apply asks_ret].
Qed.

Lemma asks_defer (cleanup rest : Go (option error)) :
  asks_only project cleanup -> asks_only project rest ->
  asks_only project (defer cleanup rest).
Proof.
  intros Hcleanup Hrest w. rewrite defer_world.
  destruct (Hrest w) as [evs1 [Htrace1 Hevs1]].
  destruct (Hcleanup (world_after rest w)) as [evs2 [Htrace2 Hevs2]].
  exists (evs1 ++ evs2). split.
  - rewrite Htrace2, Htrace1, app_assoc. reflexivity.
  - apply Forall_app. split; assumption.
Qed.

Lemma asks_os_Getwd (E : Env) : asks_only project (os_Getwd E).
Proof.
  intros w. exists [EvGetwd]. unfold world_after, os_Getwd.
  split; [destruct (Getwd_error E w); reflexivity |].
  repeat constructor. intros q Hq. discriminate Hq.
Qed.

Lemma asks_os_Chdir (E : Env) (path : string) :
  asks_only project (os_Chdir E path).
Proof.
  intros w. exists [EvChdir path]. unfold world_after, os_Chdir.
  split; [destruct (Chdir_error E path w); reflexivity |].
  repeat constructor. intros q Hq. discriminate Hq.
Qed.

End AsksOnly.

Ltac asks_step :=
  first
    [ apply asks_ret
    | apply asks_panic
    | apply asks_deref
    | apply asks_os_Getwd
    | apply asks_os_Chdir
    | apply asks_extern; intros ? ?; simpl in *; congruence
    | apply asks_emit; intros ? ?; simpl in *; congruence
    | apply asks_defer
    | apply asks_for_each; intros ? ?
    | apply asks_for_range; intros ? ?
    | apply asks_bind; [| intros ?]
    | match goal with
      | |- asks_only _ (match ?x with _ => _ end) => destruct x
      end
    | progress cbv zeta
    | progress unfold logger_Debug, logger_Info, buildAzureReposClient ].

(** Whatever the owner, the requests of the operations that take one name
    the project of the connection descriptor. *)
Lemma requests_name_descriptor_project (U : vcsutils) (E : Env)
  (client : AzureReposClient) (ctx : Context)
  (owner repository branch localPath sourceBranch targetBranch : string)
  (title description content : string) (pullRequestID : Z) :
  let project := Project (vcsInfo client) in
  asks_only project (ListBranches E client ctx owner repository) /\
  asks_only project
    (DownloadRepository U E client ctx owner repository branch localPath) /\
  asks_only project
    (CreatePullRequest U E client ctx owner repository sourceBranch
                       targetBranch title description) /\
  asks_only project
    (AddPullRequestComment E client ctx owner repository content
                           pullRequestID) /\
  asks_only project
    (ListPullRequestComments E client ctx owner repository pullRequestID) /\
  asks_only project (ListOpenPullRequests U E client ctx owner repository) /\
  asks_only project (GetLatestCommit U E client ctx owner repository branch).
Proof.
  intros project. subst project.
  unfold ListBranches, DownloadRepository, sendDownloadRepoRequest,
    CreatePullRequest, AddPullRequestComment, ListPullRequestComments,
    ListOpenPullRequests, GetLatestCommit.
  repeat split; repeat asks_step.
Qed.

(** C10. Every operation that takes an owner ignores it: two calls that
    differ in the owner only, made by the same client with the same
    collaborators in the same world, have the same outcome (result, error
    or panic) and leave the same world, requests to the provider
    included; and the project these requests name is the one of the
    connection descriptor. *)
Theorem owner_argument_is_ignored
  (U : vcsutils) (E : Env) (client : AzureReposClient) (ctx : Context)
  (owner1 owner2 : string) (w : World)
  (repository branch localPath sourceBranch targetBranch title description : string)
  (content name keyName publicKey sha scanResults payloadURL token : string)
  (webhookID ref detailsURL : string)
  (pullRequestID : Z) (permission : Permission) (labelInfo : LabelInfo)
  (webhookEvents : list WebhookEvent) (commitStatus : CommitStatus) :
  ListBranches E client ctx owner1 repository w
  = ListBranches E client ctx owner2 repository w /\
  DownloadRepository U E client ctx owner1 repository branch localPath w
  = DownloadRepository U E client ctx owner2 repository branch localPath w /\
  CreatePullRequest U E client ctx owner1 repository sourceBranch targetBranch
                    title description w
  = CreatePullRequest U E client ctx owner2 repository sourceBranch
                      targetBranch title description w /\
  AddPullRequestComment E client ctx owner1 repository content pullRequestID w
  = AddPullRequestComment E client ctx owner2 repository content
                          pullRequestID w /\
  ListPullRequestComments E client ctx owner1 repository pullRequestID w
  = ListPullRequestComments E client ctx owner2 repository pullRequestID w /\
  ListOpenPullRequests U E client ctx owner1 repository w
  = ListOpenPullRequests U E client ctx owner2 repository w /\
  GetLatestCommit U E client ctx owner1 repository branch w
  = GetLatestCommit U E client ctx owner2 repository branch w /\
  AddSshKeyToRepository client ctx owner1 repository keyName publicKey
                        permission w
  = AddSshKeyToRepository client ctx owner2 repository keyName publicKey
                          permission w /\
  GetRepositoryInfo client ctx owner1 repository w
  = GetRepositoryInfo client ctx owner2 repository w /\
  GetCommitBySha client ctx owner1 repository sha w
  = GetCommitBySha client ctx owner2 repository sha w /\
  CreateLabel client ctx owner1 repository labelInfo w
  = CreateLabel client ctx owner2 repository labelInfo w /\
  GetLabel client ctx owner1 repository name w
  = GetLabel client ctx owner2 repository name w /\
  ListPullRequestLabels client ctx owner1 repository pullRequestID w
  = ListPullRequestLabels client ctx owner2 repository pullRequestID w /\
  UnlabelPullRequest client ctx owner1 repository name pullRequestID w
  = UnlabelPullRequest client ctx owner2 repository name pullRequestID w /\
  UploadCodeScanning client ctx owner1 repository branch scanResults w
  = UploadCodeScanning client ctx owner2 repository branch scanResults w /\
  CreateWebhook client ctx owner1 repository branch payloadURL webhookEvents w
  = CreateWebhook client ctx owner2 repository branch payloadURL
                  webhookEvents w /\
  UpdateWebhook client ctx owner1 repository branch payloadURL token webhookID
                webhookEvents w
  = UpdateWebhook client ctx owner2 repository branch payloadURL token
                  webhookID webhookEvents w /\
  DeleteWebhook client ctx owner1 repository webhookID w
  = DeleteWebhook client ctx owner2 repository webhookID w /\
  SetCommitStatus client ctx commitStatus owner1 repository ref title
                  description detailsURL w
  = SetCommitStatus client ctx commitStatus owner2 repository ref title
                    description detailsURL w /\
  (let project := Project (vcsInfo client) in
   asks_only project (ListBranches E client ctx owner1 repository) /\
   asks_only project
     (DownloadRepository U E client ctx owner1 repository branch localPath) /\
   asks_only project
     (CreatePullRequest U E client ctx owner1 repository sourceBranch
                        targetBranch title description) /\
   asks_only project
     (AddPullRequestComment E client ctx owner1 repository content
                            pullRequestID) /\
   asks_only project
     (ListPullRequestComments E client ctx owner1 repository pullRequestID) /\
   asks_only project (ListOpenPullRequests U E client ctx owner1 repository) /\
   asks_only project
     (GetLatestCommit U E client ctx owner1 repository branch)).
Proof.
  repeat (split; [reflexivity |]).
  apply requests_name_descriptor_project.
Qed.

(* ===================================================================== *)
(** ** Further properties of the backend *)
(* ===================================================================== *)

(* --------------------------------------------------------------------- *)
(** *** A client without connection details *)
(* --------------------------------------------------------------------- *)

(** X1. On a client whose connection details are nil, each of the seven
    operations that go through [buildAzureReposClient] returns the error
    "connection details wasn't initialized" with the zero value of its
    other result, and asks nothing of the SDK, the transport or the
    process: the world is as it was. *)
Theorem uninitialized_client_is_reported (U : vcsutils) (E : Env)
  (client : AzureReposClient) (ctx : Context)
  (owner repository branch sourceBranch targetBranch title description : string)
  (content : string) (pullRequestID : Z) (w : World) :
  connectionDetails client = None ->
  ListRepositories E client ctx w
  = (Returned (None, Some notInitialized), w) /\
  ListBranches E client ctx owner repository w
  = (Returned ([], Some notInitialized), w) /\
  CreatePullRequest U E client ctx owner repository sourceBranch targetBranch
                    title description w
  = (Returned (Some notInitialized), w) /\
  AddPullRequestComment E client ctx owner repository content pullRequestID w
  = (Returned (Some notInitialized), w) /\
  ListPullRequestComments E client ctx owner repository pullRequestID w
  = (Returned ([], Some notInitialized), w) /\
  ListOpenPullRequests U E client ctx owner repository w
  = (Returned ([], Some notInitialized), w) /\
  GetLatestCommit U E client ctx owner repository branch w
  = (Returned (zero, Some notInitialized), w).
Proof.
  intros Hconn.
  unfold ListRepositories, ListBranches, CreatePullRequest,
    AddPullRequestComment, ListPullRequestComments, ListOpenPullRequests,
    GetLatestCommit.
  go_step. rewrite Hconn. repeat split.
Qed.

Lemma uninitialized_client_is_reported_witness :
  ListBranches unauthorizedEnv uninitializedClient ctx0 "owner" "repo" world0
  = (Returned ([], Some notInitialized), world0) /\
  GetLatestCommit sampleUtils unauthorizedEnv uninitializedClient ctx0
                  "owner" "repo" "main" world0
  = (Returned (zero, Some notInitialized), world0).
Proof.
  destruct (uninitialized_client_is_reported sampleUtils unauthorizedEnv
              uninitializedClient ctx0 "owner" "repo" "main" "feature" "main"
              "title" "description" "content" 7 world0 eq_refl)
    as [_ [Hbranches [_ [_ [_ [_ Hcommit]]]]]].
  split; assumption.
Defined.

Lemma os_Getwd_ok (E : Env) (w : World) :
  Getwd_error E w = None ->
  os_Getwd E w = (Returned (cwd w, None), record_event EvGetwd w).
Proof. intros H. unfold os_Getwd. rewrite H. reflexivity. Qed.

Lemma os_Chdir_ok (E : Env) (path : string) (w : World) :
  Chdir_error E path w = None ->
  os_Chdir E path w
  = (Returned None, set_cwd path (record_event (EvChdir path) w)).
Proof. intros H. unfold os_Chdir. rewrite H. reflexivity. Qed.

Lemma os_Chdir_trace (E : Env) (path : string) (w : World) :
  exists e w', os_Chdir E path w = (Returned e, w') /\
               trace w' = trace w ++ [EvChdir path].
Proof.
  unfold os_Chdir. destruct (Chdir_error E path w); eauto.
Qed.

(** X2. The two operations that read the connection details themselves do
    not report a nil one: [TestConnection] panics at once, asking nothing;
    [DownloadRepository] reads the working directory, enters the
    destination, panics when it builds the request, and, on its way out,
    changes back to the directory it started from.  It sends no request and
    unpacks nothing. *)
Theorem uninitialized_client_panics (U : vcsutils) (E : Env)
  (client : AzureReposClient) (ctx : Context)
  (owner repository branch localPath : string) (w : World) :
  connectionDetails client = None ->
  TestConnection E client ctx w = (Panicked nilDereference, w) /\
  (Getwd_error E w = None ->
   Chdir_error E localPath (record_event EvGetwd w) = None ->
   outcome (DownloadRepository U E client ctx owner repository branch
              localPath) w
   = Panicked nilDereference /\
   trace (world_after (DownloadRepository U E client ctx owner repository
                         branch localPath) w)
   = trace w ++ [EvGetwd; EvChdir localPath; EvChdir (cwd w)]).
Proof.
  intros Hconn. split.
  - unfold TestConnection. rewrite Hconn. reflexivity.
  - intros Hwd Hcd.
    unfold DownloadRepository, sendDownloadRepoRequest, outcome, world_after.
    cbv [mbind Go_bind]. rewrite (os_Getwd_ok E w Hwd).
    rewrite (os_Chdir_ok E localPath _ Hcd). rewrite Hconn.
    unfold defer. go_step.
    destruct (os_Chdir_trace E (cwd w)
                (set_cwd localPath
                   (record_event (EvChdir localPath) (record_event EvGetwd w))))
      as [e [w' [-> Htrace]]].
    split; [reflexivity |]. simpl. rewrite Htrace. simpl.
    rewrite <- !app_assoc. reflexivity.
Qed.

Lemma uninitialized_client_panics_witness :
  TestConnection unauthorizedEnv uninitializedClient ctx0 world0
  = (Panicked nilDereference, world0) /\
  outcome (DownloadRepository sampleUtils zipEnv uninitializedClient ctx0
             "owner" "repo" "main" "/tmp/checkout") world0
  = Panicked nilDereference.
Proof.
  split.
  - apply (uninitialized_client_panics sampleUtils unauthorizedEnv
             uninitializedClient ctx0 "owner" "repo" "main" "/tmp/checkout"
             world0 eq_refl).
  - apply (uninitialized_client_panics sampleUtils zipEnv
             uninitializedClient ctx0 "owner" "repo" "main" "/tmp/checkout"
             world0 eq_refl); reflexivity.
Defined.

(* --------------------------------------------------------------------- *)
(** *** ListBranches *)
(* --------------------------------------------------------------------- *)

Lemma mapM_None_Exists {A B : Type} (f : A -> option B) (xs : list A) :
  Exists (fun x => f x = None) xs -> mapM f xs = None.
Proof.
  intros Hex. destruct (mapM f xs) as [ys|] eqn:Hys; [| reflexivity].
  apply mapM_Some in Hys. exfalso.
  induction Hys as [|x y xs' ys' Hxy _ IH].
  - inversion Hex.
  - inversion Hex as [? ? Hnone | ? ? Hrest]; subst; [congruence | auto].
Qed.

Lemma foldl_snoc {A : Type} (xs acc : list A) :
  foldl (fun acc x => acc ++ [x]) acc xs = acc ++ xs.
Proof.
  rewrite (foldl_snoc_map (fun x => x) xs acc), map_id. reflexivity.
Qed.

(** What [ListBranches] does once the client is built and the provider has
    answered. *)
Lemma ListBranches_answered (E : Env) (client : AzureReposClient)
  (ctx : Context) (owner repository : string) (conn : Connection)
  (gitClient : git_Client) (stats : list GitBranchStats) (w : World) :
  connectionDetails client = Some conn ->
  git_NewClient E ctx conn w = (Some gitClient, None) ->
  git_GetBranches gitClient ctx (getBranchesArgsOf client repository)
                  (built conn w)
  = (Some stats, None) ->
  outcome (ListBranches E client ctx owner repository) w
  = match mapM Branch_Name stats with
    | Some names => Returned (names, None)
    | None => Panicked nilDereference
    end.
Proof.
  intros Hconn Hbuild Hstats.
  unfold ListBranches, getBranchesArgsOf, built in *.
  go_step. rewrite Hconn, Hbuild, Hstats.
  erewrite (for_each_reads _ Branch_Name (fun acc name => acc ++ [name])).
  - destruct (mapM Branch_Name stats) as [names|]; [| reflexivity].
    rewrite foldl_snoc. reflexivity.
  - intros branch acc w'. destruct (Branch_Name branch); reflexivity.
Qed.

(** X3. When the provider answers the request for the branches of a
    repository, [ListBranches] returns the names of the branches in the
    provider's order and a nil error, hence the empty sequence for a
    repository without branches; a branch whose name is nil makes the call
    panic instead of returning. *)
Theorem ListBranches_returns_names_in_order (E : Env)
  (client : AzureReposClient) (ctx : Context) (owner repository : string)
  (conn : Connection) (gitClient : git_Client) (stats : list GitBranchStats)
  (w : World) :
  connectionDetails client = Some conn ->
  git_NewClient E ctx conn w = (Some gitClient, None) ->
  git_GetBranches gitClient ctx (getBranchesArgsOf client repository)
                  (built conn w)
  = (Some stats, None) ->
  (forall names : list string,
     Forall2 (fun branch name => Branch_Name branch = Some name) stats names ->
     outcome (ListBranches E client ctx owner repository) w
     = Returned (names, None)) /\
  (stats = [] ->
   outcome (ListBranches E client ctx owner repository) w
   = Returned ([], None)) /\
  (Exists (fun branch => Branch_Name branch = None) stats ->
   outcome (ListBranches E client ctx owner repository) w
   = Panicked nilDereference).
Proof.
  intros Hconn Hbuild Hstats.
  rewrite (ListBranches_answered E client ctx owner repository conn gitClient
             stats w Hconn Hbuild Hstats).
  split; [| split].
  - intros names Hnames. apply mapM_Some in Hnames. rewrite Hnames. reflexivity.
  - intros ->. reflexivity.
  - intros Hex. rewrite (mapM_None_Exists _ _ Hex). reflexivity.
Qed.

Lemma ListBranches_returns_names_in_order_witness :
  outcome (ListBranches
             (listingEnv [ {| Branch_Name := Some "main" |};
                           {| Branch_Name := Some "dev" |} ] [])
             sampleClient ctx0 "owner" "repo") world0
  = Returned (["main"; "dev"], None) /\
  outcome (ListBranches
             (listingEnv [ {| Branch_Name := Some "main" |};
                           {| Branch_Name := None |} ] [])
             sampleClient ctx0 "owner" "repo") world0
  = Panicked nilDereference.
Proof.
  split.
  - apply (ListBranches_returns_names_in_order
             (listingEnv [ {| Branch_Name := Some "main" |};
                           {| Branch_Name := Some "dev" |} ] [])
             sampleClient ctx0 "owner" "repo" sampleConnection
             (listingClient [ {| Branch_Name := Some "main" |};
                              {| Branch_Name := Some "dev" |} ] [])
             [ {| Branch_Name := Some "main" |}; {| Branch_Name := Some "dev" |} ]
             world0 eq_refl eq_refl eq_refl).
    repeat constructor.
  - apply (ListBranches_returns_names_in_order
             (listingEnv [ {| Branch_Name := Some "main" |};
                           {| Branch_Name := None |} ] [])
             sampleClient ctx0 "owner" "repo" sampleConnection
             (listingClient [ {| Branch_Name := Some "main" |};
                              {| Branch_Name := None |} ] [])
             [ {| Branch_Name := Some "main" |}; {| Branch_Name := None |} ]
             world0 eq_refl eq_refl eq_refl).
    apply Exists_cons_tl, Exists_cons_hd. reflexivity.
Defined.

(* --------------------------------------------------------------------- *)
(** *** ListOpenPullRequests *)
(* --------------------------------------------------------------------- *)

Lemma pullRequestInfoOf_maps (U : vcsutils) (repository : string)
  (pr : GitPullRequest) (id : Z) :
  PullRequestId pr = Some id ->
  pullRequest_maps U repository pr (pullRequestInfoOf U repository pr).
Proof.
  intros Hid. unfold pullRequest_maps, pullRequestInfoOf. simpl.
  rewrite Hid. repeat split.
Qed.

(** What [ListOpenPullRequests] does once the client is built and the
    provider has answered. *)
Lemma ListOpenPullRequests_answered (U : vcsutils) (E : Env)
  (client : AzureReposClient) (ctx : Context) (owner repository : string)
  (conn : Connection) (gitClient : git_Client)
  (pullRequests : list GitPullRequest) (w : World) :
  connectionDetails client = Some conn ->
  git_NewClient E ctx conn w = (Some gitClient, None) ->
  git_GetPullRequests gitClient ctx (getPullRequestsArgsOf client repository)
    (logged Debug ["fetching open pull requests in"; repository] (built conn w))
  = (Some pullRequests, None) ->
  outcome (ListOpenPullRequests U E client ctx owner repository) w
  = if forallb (fun pr => bool_decide (is_Some (PullRequestId pr))) pullRequests
    then Returned (map (pullRequestInfoOf U repository) pullRequests, None)
    else Panicked nilDereference.
Proof.
  intros Hconn Hbuild Hprs.
  unfold ListOpenPullRequests, getPullRequestsArgsOf, logged, built in *.
  go_step. rewrite Hconn, Hbuild, Hprs.
  match goal with
  | |- context [for_each pullRequests ?body ?acc ?w0] =>
      assert (Hloop : forall prs acc0,
        for_each prs body acc0 w0
        = if forallb (fun pr => bool_decide (is_Some (PullRequestId pr))) prs
          then (Returned (acc0 ++ map (pullRequestInfoOf U repository) prs), w0)
          else (Panicked nilDereference, w0))
  end.
  { induction prs as [|pr rest IH]; intros acc0; simpl.
    - rewrite app_nil_r. reflexivity.
    - cbv [mbind Go_bind mret Go_ret deref panic].
      unfold pullRequestInfoOf at 1.
      destruct (PullRequestId pr) as [id|]; simpl; [| reflexivity].
      rewrite IH, <- app_assoc. reflexivity. }
  rewrite Hloop.
  destruct (forallb _ pullRequests); reflexivity.
Qed.

(** X4. [ListOpenPullRequests] asks the provider for the pull requests of
    the repository whose status is active, and, when the provider answers,
    returns one [PullRequestInfo] per pull request of the answer, in the
    answer's order and without filtering: the provider's id, and the source
    and target branch names read through [DefaultIfNotNil], both tagged
    with the [repository] argument.  A pull request without an id makes the
    call panic. *)
Theorem ListOpenPullRequests_maps_each_pull_request (U : vcsutils) (E : Env)
  (client : AzureReposClient) (ctx : Context) (owner repository : string)
  (conn : Connection) (gitClient : git_Client)
  (pullRequests : list GitPullRequest) (w : World) :
  connectionDetails client = Some conn ->
  git_NewClient E ctx conn w = (Some gitClient, None) ->
  git_GetPullRequests gitClient ctx
    {| GPR_RepositoryId := repository;
       GPR_Project := Project (vcsInfo client);
       GPR_Status := PullRequestActive |}
    (logged Debug ["fetching open pull requests in"; repository] (built conn w))
  = (Some pullRequests, None) ->
  (Forall (fun pr => is_Some (PullRequestId pr)) pullRequests ->
   exists infos : list PullRequestInfo,
     outcome (ListOpenPullRequests U E client ctx owner repository) w
     = Returned (infos, None) /\
     Forall2 (pullRequest_maps U repository) pullRequests infos) /\
  (Exists (fun pr => PullRequestId pr = None) pullRequests ->
   outcome (ListOpenPullRequests U E client ctx owner repository) w
   = Panicked nilDereference).
Proof.
  intros Hconn Hbuild Hprs.
  rewrite (ListOpenPullRequests_answered U E client ctx owner repository conn
             gitClient pullRequests w Hconn Hbuild Hprs).
  clear Hprs. split.
  - intros Hids. exists (map (pullRequestInfoOf U repository) pullRequests).
    induction Hids as [|pr rest [id Hid] _ IH]; simpl.
    + split; [reflexivity | constructor].
    + rewrite Hid. simpl.
      destruct (forallb _ rest); destruct IH as [Hout Hall];
        [| discriminate Hout].
      split; [reflexivity |].
      constructor; [apply (pullRequestInfoOf_maps U repository pr id Hid) |].
      exact Hall.
  - intros Hex. induction Hex as [pr rest Hnone | pr rest _ IH]; simpl.
    + rewrite Hnone. reflexivity.
    + destruct (bool_decide _); simpl; [| reflexivity].
      destruct (forallb _ rest); [discriminate IH | reflexivity].
Qed.

Lemma ListOpenPullRequests_maps_each_pull_request_witness :
  exists infos : list PullRequestInfo,
    outcome (ListOpenPullRequests sampleUtils (listingEnv [] [openPullRequest])
               sampleClient ctx0 "owner" "repo") world0
    = Returned (infos, None) /\
    Forall2 (pullRequest_maps sampleUtils "repo") [openPullRequest] infos.
Proof.
  apply (ListOpenPullRequests_maps_each_pull_request sampleUtils
           (listingEnv [] [openPullRequest]) sampleClient ctx0 "owner" "repo"
           sampleConnection (listingClient [] [openPullRequest])
           [openPullRequest] world0 eq_refl eq_refl eq_refl).
  repeat constructor. exists 42. reflexivity.
Defined.

(* --------------------------------------------------------------------- *)
(** *** AddPullRequestComment *)
(* --------------------------------------------------------------------- *)

(** X5. Once the SDK client is built, [AddPullRequestComment] asks the
    provider to open one new thread on the pull request: an active thread
    holding a single comment whose content is the text given, with no
    author and no id.  It returns the error the provider answers (nil when
    the thread was opened), and every call opens a thread of its own: the
    comment is never added to a thread that exists. *)
Theorem AddPullRequestComment_opens_one_thread (E : Env)
  (client : AzureReposClient) (ctx : Context)
  (owner repository content : string) (pullRequestID : Z)
  (conn : Connection) (gitClient : git_Client) (w : World) :
  connectionDetails client = Some conn ->
  git_NewClient E ctx conn w = (Some gitClient, None) ->
  let call := AddPullRequestComment E client ctx owner repository content
                                    pullRequestID in
  let thread := newThreadOf client repository content pullRequestID in
  outcome call w
  = Returned (git_CreateThread gitClient ctx thread (built conn w)).2 /\
  threadsOpened (world_after call w) = threadsOpened w ++ [thread].
Proof.
  intros Hconn Hbuild call thread. subst call thread.
  unfold AddPullRequestComment, newThreadOf, built, threadsOpened.
  go_step. rewrite Hconn, Hbuild.
  destruct (git_CreateThread gitClient _ _ _) as [opened err]. simpl.
  split; [reflexivity |].
  rewrite !omap_app. simpl. rewrite app_nil_r. reflexivity.
Qed.

Lemma AddPullRequestComment_opens_one_thread_witness :
  outcome (AddPullRequestComment acceptingEnv sampleClient ctx0 "owner" "repo"
             "LGTM" 7) world0
  = Returned None /\
  threadsOpened
    (world_after (AddPullRequestComment acceptingEnv sampleClient ctx0 "owner"
                    "repo" "LGTM" 7) world0)
  = [newThreadOf sampleClient "repo" "LGTM" 7].
Proof.
  apply (AddPullRequestComment_opens_one_thread acceptingEnv sampleClient ctx0
           "owner" "repo" "LGTM" 7 sampleConnection (cannedClient [] [] [])
           world0 eq_refl eq_refl).
Defined.

(* --------------------------------------------------------------------- *)
(** *** ListPullRequestComments: missing fields *)
(* --------------------------------------------------------------------- *)

(** X6. When the provider answers the request for the threads, the call
    returns all of them or none: if a thread lacks its comments, its id or
    its published date, or a comment lacks its author, the author's display
    name, its id or its content, the call panics with a nil dereference; it
    returns neither an error nor the threads that are complete. *)
Theorem ListPullRequestComments_all_or_panic (E : Env)
  (client : AzureReposClient) (ctx : Context) (owner repository : string)
  (pullRequestID : Z) (conn : Connection) (gitClient : git_Client)
  (threads : list GitPullRequestCommentThread) (w : World) :
  connectionDetails client = Some conn ->
  git_NewClient E ctx conn w = (Some gitClient, None) ->
  git_GetThreads gitClient ctx
    (getThreadsArgsOf client repository pullRequestID) (built conn w)
  = (Some threads, None) ->
  Exists (fun thread => thread_populated thread = false) threads ->
  outcome (ListPullRequestComments E client ctx owner repository pullRequestID)
          w
  = Panicked nilDereference.
Proof.
  intros Hconn Hbuild Hthreads Hex.
  pose proof (Exists_forallb_false _ _ Hex) as Hpop.
  unfold ListPullRequestComments, getThreadsArgsOf, built in *.
  go_step. rewrite Hconn, Hbuild, Hthreads.
  erewrite (for_range_computes_or_panics _
              (fun acc t => acc ++ [flattenThread t]) thread_populated).
  - rewrite Hpop. reflexivity.
  - intros t acc w' Ht.
    unfold thread_populated in Ht.
    destruct t as [[comments|] [id|] [date|]]; simpl in Ht;
      rewrite ?andb_false_r in Ht; try discriminate.
    rewrite !andb_true_r in Ht. simpl.
    erewrite (for_range_computes _ (fun agg c => agg +:+ lineOf c)
                comment_populated); [| | exact Ht].
    + rewrite foldl_lines. reflexivity.
    + intros c agg w'' Hc. unfold comment_populated in Hc.
      destruct c as [[[[name|]]|] [content|] [cid|]]; simpl in Hc;
        try discriminate.
      reflexivity.
  - intros t acc w' Ht.
    unfold thread_populated in Ht.
    destruct t as [[comments|] id date]; simpl in *; [| reflexivity].
    erewrite (for_range_computes_or_panics _ (fun agg c => agg +:+ lineOf c)
                comment_populated).
    + destruct (forallb comment_populated comments); simpl in *;
        [| reflexivity].
      destruct id as [id|]; simpl in *; [| reflexivity].
      destruct date as [date|]; simpl in *; [discriminate | reflexivity].
    + intros c agg w'' Hc. unfold comment_populated in Hc.
      destruct c as [[[[name|]]|] [content|] [cid|]]; simpl in Hc;
        try discriminate.
      reflexivity.
    + intros c agg w'' Hc. unfold comment_populated in Hc.
      destruct c as [[[[name|]]|] [content|] [cid|]]; simpl in Hc;
        try discriminate; reflexivity.
Qed.

Lemma ListPullRequestComments_all_or_panic_witness :
  outcome (ListPullRequestComments (threadsEnv [threadA; threadWithoutContent])
             sampleClient ctx0 "owner" "repo" 7) world0
  = Panicked nilDereference.
Proof.
  apply (ListPullRequestComments_all_or_panic
           (threadsEnv [threadA; threadWithoutContent]) sampleClient ctx0
           "owner" "repo" 7 sampleConnection
           (cannedClient [] [threadA; threadWithoutContent] [])
           [threadA; threadWithoutContent] world0 eq_refl eq_refl eq_refl).
  apply Exists_cons_tl, Exists_cons_hd. reflexivity.
Defined.

(* --------------------------------------------------------------------- *)
(** *** GetLatestCommit: what is read of the answer *)
(* --------------------------------------------------------------------- *)

(** What [GetLatestCommit] does once the client is built and the provider
    has answered with at least one commit. *)
Lemma GetLatestCommit_answered (U : vcsutils) (E : Env)
  (client : AzureReposClient) (ctx : Context)
  (owner repository branch : string) (conn : Connection)
  (gitClient : git_Client) (latestCommit : GitCommitRef)
  (rest : list GitCommitRef) (w : World) :
  connectionDetails client = Some conn ->
  git_NewClient E ctx conn w = (Some gitClient, None) ->
  git_GetCommits gitClient ctx (getCommitsArgsOf client repository branch)
                 (built conn w)
  = (Some (latestCommit :: rest), None) ->
  outcome (GetLatestCommit U E client ctx owner repository branch) w
  = match Commit_Author latestCommit, Commit_Committer latestCommit with
    | Some author, Some committer =>
        match User_Date committer with
        | Some date =>
            Returned
              ({| Hash := DefaultIfNotNil U (CommitId latestCommit);
                  AuthorName := DefaultIfNotNil U (User_Name author);
                  CommitterName := DefaultIfNotNil U (User_Name committer);
                  Url := DefaultIfNotNil U (Commit_Url latestCommit);
                  Timestamp := Unix date;
                  Message := DefaultIfNotNil U (Commit_Comment latestCommit);
                  ParentHashes :=
                    DefaultIfNotNil U (Commit_Parents latestCommit) |}, None)
        | None => Panicked nilDereference
        end
    | _, _ => Panicked nilDereference
    end.
Proof.
  intros Hconn Hbuild Hcommits.
  unfold GetLatestCommit, getCommitsArgsOf, built in *.
  go_step. rewrite Hconn, Hbuild, Hcommits.
  destruct (Commit_Author latestCommit) as [author|]; [| reflexivity].
  destruct (Commit_Committer latestCommit) as [committer|]; [| reflexivity].
  destruct (User_Date committer) as [date|]; reflexivity.
Qed.

(** X7. Of the provider's list of commits, [GetLatestCommit] reads the
    first commit only: two answers with the same first commit give the same
    outcome, whatever follows.  The call panics exactly when that commit
    has no author, no committer, or a committer without a date; a nil
    commit id, url, comment, parents or name is read as a zero value and
    does not stop it. *)
Theorem GetLatestCommit_reads_first_commit_only (U : vcsutils)
  (E1 E2 : Env) (client : AzureReposClient) (ctx : Context)
  (owner repository branch : string) (conn : Connection)
  (gitClient1 gitClient2 : git_Client) (latestCommit : GitCommitRef)
  (rest1 rest2 : list GitCommitRef) (w1 w2 : World) :
  connectionDetails client = Some conn ->
  git_NewClient E1 ctx conn w1 = (Some gitClient1, None) ->
  git_NewClient E2 ctx conn w2 = (Some gitClient2, None) ->
  git_GetCommits gitClient1 ctx (getCommitsArgsOf client repository branch)
                 (built conn w1)
  = (Some (latestCommit :: rest1), None) ->
  git_GetCommits gitClient2 ctx (getCommitsArgsOf client repository branch)
                 (built conn w2)
  = (Some (latestCommit :: rest2), None) ->
  outcome (GetLatestCommit U E1 client ctx owner repository branch) w1
  = outcome (GetLatestCommit U E2 client ctx owner repository branch) w2 /\
  (outcome (GetLatestCommit U E1 client ctx owner repository branch) w1
   = Panicked nilDereference <->
   Commit_Author latestCommit = None \/
   Commit_Committer latestCommit = None \/
   exists committer : GitUserDate,
     Commit_Committer latestCommit = Some committer /\
     User_Date committer = None).
Proof.
  intros Hconn Hbuild1 Hbuild2 Hcommits1 Hcommits2.
  rewrite (GetLatestCommit_answered U E1 client ctx owner repository branch
             conn gitClient1 latestCommit rest1 w1 Hconn Hbuild1 Hcommits1).
  rewrite (GetLatestCommit_answered U E2 client ctx owner repository branch
             conn gitClient2 latestCommit rest2 w2 Hconn Hbuild2 Hcommits2).
  split; [reflexivity |].
  destruct (Commit_Author latestCommit) as [author|];
    destruct (Commit_Committer latestCommit) as [committer|];
    try (split; [intros _ | reflexivity]; auto; fail).
  destruct (User_Date committer) as [date|] eqn:Hdate.
  - split; [discriminate |].
    intros [H | [H | [k [Hk Hnone]]]]; try discriminate.
    injection Hk as <-. congruence.
  - split; [| reflexivity]. intros _. right. right. eauto.
Qed.

Lemma GetLatestCommit_reads_first_commit_only_witness :
  outcome (GetLatestCommit sampleUtils (commitsEnv [bareCommit; headCommit])
             sampleClient ctx0 "owner" "repo" "main") world0
  = outcome (GetLatestCommit sampleUtils (commitsEnv [bareCommit; olderCommit])
               sampleClient ctx0 "owner" "repo" "main") world0.
Proof.
  apply (GetLatestCommit_reads_first_commit_only sampleUtils
           (commitsEnv [bareCommit; headCommit])
           (commitsEnv [bareCommit; olderCommit])
           sampleClient ctx0 "owner" "repo" "main" sampleConnection
           (cannedClient [] [] [bareCommit; headCommit])
           (cannedClient [] [] [bareCommit; olderCommit])
           bareCommit [headCommit] [olderCommit] world0 world0
           eq_refl eq_refl eq_refl eq_refl eq_refl).
Defined.

Example GetLatestCommit_bare_commit :
  outcome (GetLatestCommit sampleUtils (commitsEnv [bareCommit; headCommit])
             sampleClient ctx0 "owner" "repo" "main") world0
  = Returned ({| Hash := EmptyString; AuthorName := EmptyString;
                 CommitterName := EmptyString; Url := EmptyString;
                 Timestamp := 3000; Message := EmptyString;
                 ParentHashes := [] |}, None).
Proof. vm_compute. reflexivity. Qed.

(* --------------------------------------------------------------------- *)
(** *** The error of an unsupported operation tells the operation *)
(* --------------------------------------------------------------------- *)

Lemma length_append (s t : string) :
  String.length (s +:+ t) = (String.length s + String.length t)%nat.
Proof.
  induction s as [|c s IH]; [reflexivity |].
  rewrite append_cons. simpl. rewrite IH. reflexivity.
Qed.

Lemma append_cancel_r (s1 s2 t : string) :
  s1 +:+ t = s2 +:+ t -> s1 = s2.
Proof.
  revert s2. induction s1 as [|c1 s1 IH]; intros [|c2 s2] H.
  - reflexivity.
  - apply (f_equal String.length) in H.
    change (EmptyString +:+ t) with t in H.
    rewrite append_cons in H.
    change (String.length (String c2 (s2 +:+ t)))
      with (S (String.length (s2 +:+ t))) in H.
    rewrite length_append in H. lia.
  - apply (f_equal String.length) in H.
    change (EmptyString +:+ t) with t in H.
    rewrite append_cons in H.
    change (String.length (String c1 (s1 +:+ t)))
      with (S (String.length (s1 +:+ t))) in H.
    rewrite length_append in H. lia.
  - rewrite !append_cons in H. injection H as -> H.
    f_equal. apply IH. exact H.
Qed.

(** X8. The error of an unsupported operation determines the operation:
    two names give the same error only if they are the same name, so a
    caller holding the error can tell which operation was refused. *)
Theorem getUnsupportedInAzureError_injective (functionName1 functionName2 : string) :
  getUnsupportedInAzureError functionName1
  = getUnsupportedInAzureError functionName2 ->
  functionName1 = functionName2.
Proof.
  unfold getUnsupportedInAzureError. intros H. injection H as H.
  apply append_cancel_r in H. exact H.
Qed.

Lemma getUnsupportedInAzureError_injective_witness :
  "get label" = "get label".
Proof.
  apply (getUnsupportedInAzureError_injective "get label" "get label").
  reflexivity.
Defined.

(* --------------------------------------------------------------------- *)
(** *** NewAzureReposClient *)
(* --------------------------------------------------------------------- *)

Lemma substring_all (s : string) : String.substring 0 (String.length s) s = s.
Proof.
  induction s as [|c s IH]; [reflexivity |].
  change (String c (String.substring 0 (String.length s) s) = String c s).
  rewrite IH. reflexivity.
Qed.

Lemma substring_prefix (s t : string) :
  String.substring 0 (String.length s) (s +:+ t) = s.
Proof.
  induction s as [|c s IH]; [destruct t; reflexivity |].
  rewrite append_cons.
  change (String c (String.substring 0 (String.length s) (s +:+ t))
          = String c s).
  rewrite IH. reflexivity.
Qed.

Lemma substring_suffix (s t : string) :
  String.substring (String.length s) (String.length t) (s +:+ t) = t.
Proof.
  induction s as [|c s IH]; [apply substring_all |].
  rewrite append_cons. exact IH.
Qed.

Lemma substring_split (s : string) (i : nat) :
  (i <= String.length s)%nat ->
  s = String.substring 0 i s +:+ String.substring i (String.length s - i) s.
Proof.
  revert i. induction s as [|c s IH]; intros i Hi.
  - destruct i; [reflexivity | simpl in Hi; lia].
  - destruct i as [|i].
    + change (String c s
              = String.substring 0 (String.length (String c s)) (String c s)).
      symmetry. apply substring_all.
    + change (String c s
              = String c (String.substring 0 i s
                          +:+ String.substring i (String.length s - i) s)).
      rewrite <- IH; [reflexivity | simpl in Hi; lia].
Qed.

(** [strings.TrimSuffix] removes the suffix, once, when it is there. *)
Lemma TrimSuffix_app (s suffix : string) :
  TrimSuffix (s +:+ suffix) suffix = s.
Proof.
  unfold TrimSuffix. rewrite length_append.
  replace (String.length s + String.length suffix - String.length suffix)%nat
    with (String.length s) by lia.
  rewrite substring_suffix, substring_prefix, String.eqb_refl.
  destruct (String.length suffix <=? String.length s + String.length suffix)%nat
    eqn:Hle; [reflexivity |].
  apply Nat.leb_gt in Hle. lia.
Qed.

(** and leaves the other strings as they are. *)
Lemma TrimSuffix_other (s suffix : string) :
  (forall p : string, s <> p +:+ suffix) -> TrimSuffix s suffix = s.
Proof.
  intros Hno. unfold TrimSuffix.
  destruct (String.length suffix <=? String.length s)%nat eqn:Hle;
    [| reflexivity].
  destruct (String.eqb _ suffix) eqn:Heq; [| reflexivity].
  exfalso. apply Nat.leb_le in Hle. apply String.eqb_eq in Heq.
  apply (Hno (String.substring 0 (String.length s - String.length suffix) s)).
  rewrite (substring_split s (String.length s - String.length suffix))
    at 1 by lia.
  f_equal.
  replace (String.length s - (String.length s - String.length suffix))%nat
    with (String.length suffix) by lia.
  exact Heq.
Qed.

(** X9. [NewAzureReposClient] never fails and asks nothing of the outside.
    It hands the SDK the API endpoint without its trailing path separator,
    if it has one: an endpoint written with or without the final "/" gives
    the same connection, and only one "/" is taken off. *)
Theorem NewAzureReposClient_trims_one_separator (E : Env)
  (endpoint token project : string) :
  let withSeparator :=
    {| APIEndpoint := endpoint +:+ "/"; Token := token; Project := project |} in
  let without :=
    {| APIEndpoint := endpoint; Token := token; Project := project |} in
  NewAzureReposClient E withSeparator
  = ({| vcsInfo := withSeparator;
        connectionDetails := Some (NewPatConnection E endpoint token) |},
     None) /\
  ((forall p : string, endpoint <> p +:+ "/") ->
   NewAzureReposClient E without
   = ({| vcsInfo := without;
         connectionDetails := Some (NewPatConnection E endpoint token) |},
      None)).
Proof.
  intros withSeparator without. unfold NewAzureReposClient, PathSeparator.
  split.
  - simpl. rewrite TrimSuffix_app. reflexivity.
  - intros Hno. simpl. rewrite (TrimSuffix_other _ _ Hno). reflexivity.
Qed.

Lemma NewAzureReposClient_trims_one_separator_witness :
  connectionDetails
    (NewAzureReposClient acceptingEnv
       {| APIEndpoint := "https://dev.azure.com/org"; Token := "pat";
          Project := "proj" |}).1
  = connectionDetails
      (NewAzureReposClient acceptingEnv
         {| APIEndpoint := "https://dev.azure.com/org" +:+ "/"; Token := "pat";
            Project := "proj" |}).1.
Proof.
  destruct (NewAzureReposClient_trims_one_separator acceptingEnv
              "https://dev.azure.com/org" "pat" "proj") as [Hwith Hwithout].
  rewrite Hwith, Hwithout; [reflexivity |].
  intros p Hp. pose proof (TrimSuffix_app p "/") as Htrim.
  rewrite <- Hp in Htrim. vm_compute in Htrim. subst p.
  vm_compute in Hp. discriminate Hp.
Defined.

(* --------------------------------------------------------------------- *)
(** *** sendDownloadRepoRequest *)
(* --------------------------------------------------------------------- *)

Lemma Header_Add_comm (k1 v1 k2 v2 : string) (h : gmap string (list string)) :
  k1 <> k2 ->
  Header_Add k1 v1 (Header_Add k2 v2 h) = Header_Add k2 v2 (Header_Add k1 v1 h).
Proof.
  intros Hne. unfold Header_Add.
  rewrite (lookup_insert_ne _ k2 k1) by congruence.
  rewrite (lookup_insert_ne _ k1 k2) by congruence.
  apply insert_insert_ne. congruence.
Qed.

Lemma foldl_Header_Add_perm (l1 l2 : list (string * string)) :
  l1 ≡ₚ l2 -> NoDup l1.*1 ->
  forall h, foldl (fun h kv => Header_Add kv.1 kv.2 h) h l1
            = foldl (fun h kv => Header_Add kv.1 kv.2 h) h l2.
Proof.
  induction 1 as [| x l1 l2 _ IH | x y l | l1 l2 l3 H12 IH12 H23 IH23];
    intros Hnodup h.
  - reflexivity.
  - simpl. apply IH. inversion Hnodup; assumption.
  - simpl. rewrite Header_Add_comm; [reflexivity |].
    simpl in Hnodup. inversion Hnodup as [| ? ? Hnotin _]; subst.
    intros Heq. apply Hnotin. rewrite Heq. left.
  - rewrite IH12 by assumption. apply IH23.
    rewrite <- H12. exact Hnodup.
Qed.

(** X10. The headers of the download request do not depend on the order in
    which Go walks through the map of headers: added in any order, the
    three entries (the authorization string, [download] and [resolveLfs])
    give the same request. *)
Theorem download_headers_any_order (conn : Connection) (req : Request)
  (headers : list (string * string)) :
  headers ≡ₚ downloadHeaders conn ->
  withHeaders headers req = withHeaders (downloadHeaders conn) req.
Proof.
  intros Hperm. unfold withHeaders. f_equal.
  apply foldl_Header_Add_perm; [exact Hperm |].
  rewrite Hperm. unfold downloadHeaders. simpl.
  apply (bool_decide_unpack _). reflexivity.
Qed.

Lemma download_headers_any_order_witness :
  withHeaders [("resolveLfs", "true");
               ("Authorization", "Basic OnBhdA==");
               ("download", "true")]
              {| Req_Method := "GET"; Req_URL := "u"; Req_Header := ∅ |}
  = withHeaders (downloadHeaders sampleConnection)
                {| Req_Method := "GET"; Req_URL := "u"; Req_Header := ∅ |}.
Proof.
  apply (download_headers_any_order sampleConnection).
  unfold downloadHeaders. simpl.
  etransitivity; [apply Permutation_swap |].
  apply perm_skip. apply Permutation_swap.
Defined.



(* --------------------------------------------------------------------- *)
(** *** DownloadRepository: the whole run *)
(* --------------------------------------------------------------------- *)






(** Case analysis on the answers of the collaborators of a download. *)
Ltac download_cases U E client :=
  repeat match goal with
         | |- context [Getwd_error E ?x] =>
             destruct (Getwd_error E x) eqn:?; simpl
         | |- context [connectionDetails client] =>
             destruct (connectionDetails client) eqn:?; simpl
         | |- context [http_NewRequestWithContext E ?a ?b ?c] =>
             destruct (http_NewRequestWithContext E a b c)
               as [[?|] [?|]] eqn:?; simpl
         | |- context [httpClient_Do E ?r ?x] =>
             destruct (httpClient_Do E r x) as [[?|] [?|]] eqn:?; simpl
         | |- context [StatusCode ?r <? 200] =>
             destruct (StatusCode r <? 200) eqn:?; simpl
         | |- context [300 <=? StatusCode ?r] =>
             destruct (300 <=? StatusCode r) eqn:?; simpl
         | |- context [io_ReadAll E ?b ?x] =>
             destruct (io_ReadAll E b x) as [? [?|]] eqn:?; simpl
         | |- context [Unzip U ?c ?p ?x] =>
             destruct (Unzip U c p x) eqn:?; simpl
         | |- context [Body_Close E ?b ?x] =>
             destruct (Body_Close E b x) eqn:?; simpl
         | |- context [Chdir_error E ?p ?x] =>
             destruct (Chdir_error E p x) eqn:?; simpl
         end.


(** X14. Whatever the collaborators answer, and whether the call returns or
    panics, [DownloadRepository] leaves the process either in the working
    directory it started in or in the destination; and it is the first of
    the two whenever that directory can be entered again. *)
Theorem DownloadRepository_working_directory (U : vcsutils) (E : Env)
  (client : AzureReposClient) (ctx : Context)
  (owner repository branch localPath : string) (w : World) :
  let after := world_after (DownloadRepository U E client ctx owner repository
                              branch localPath) w in
  (cwd after = cwd w \/ cwd after = localPath) /\
  ((forall w', Chdir_error E (cwd w) w' = None) -> cwd after = cwd w).
Proof.
  intros after. subst after. split.
  - unfold DownloadRepository, sendDownloadRepoRequest, world_after, defer,
      os_Getwd, os_Chdir.
    go_step. download_cases U E client; auto.
  - apply DownloadRepository_restores_cwd.
Qed.

Lemma DownloadRepository_working_directory_witness :
  cwd (world_after (DownloadRepository sampleUtils unreachableEnv sampleClient
                      ctx0 "owner" "repo" "main" "/tmp/checkout") world0)
  = "/home/user".
Proof.
  apply (DownloadRepository_working_directory sampleUtils unreachableEnv
           sampleClient ctx0 "owner" "repo" "main" "/tmp/checkout" world0).
  reflexivity.
Defined.

(** X16. Whatever the collaborators answer, [DownloadRepository] sends at
    most one request, and closes the body of the response it got exactly
    once, on every way out (bad status, failed read, failed unpacking,
    success); it closes nothing when it got no response. *)
Theorem DownloadRepository_closes_the_body_once (U : vcsutils) (E : Env)
  (client : AzureReposClient) (ctx : Context)
  (owner repository branch localPath : string) (w : World) :
  let after := world_after (DownloadRepository U E client ctx owner repository
                              branch localPath) w in
  (httpRequestsSent after = httpRequestsSent w /\
   bodiesClosed after = bodiesClosed w) \/
  exists (r : Request) (w1 : World) (response : option Response)
         (err : option error),
    httpRequestsSent after = httpRequestsSent w ++ [r] /\
    httpClient_Do E r w1 = (response, err) /\
    bodiesClosed after
    = bodiesClosed w ++ match response with
                        | Some answered => [Body answered]
                        | None => []
                        end.
Proof.
  intros after. subst after.
  unfold DownloadRepository, sendDownloadRepoRequest, world_after,
    httpRequestsSent, bodiesClosed, defer, os_Getwd, os_Chdir.
  go_step. download_cases U E client.
  all: rewrite ?omap_app; simpl; rewrite ?app_nil_r.
  all: try (left; split; reflexivity).
  all: right; do 4 eexists;
    split; [reflexivity | split; [eassumption |]];
    simpl; rewrite ?app_nil_r; reflexivity.
Qed.

(** X17. Whatever the collaborators answer, the lines [DownloadRepository]
    logs are the first ones of: the download url, the repository with
    "downloaded successfully, starting with repository extraction", and
    "extracted repository successfully", in this order.  The authorization
    string is sent with the request and is no part of any line. *)
Theorem DownloadRepository_log_lines (U : vcsutils) (E : Env)
  (client : AzureReposClient) (ctx : Context)
  (owner repository branch localPath : string) (w : World) :
  let after := world_after (DownloadRepository U E client ctx owner repository
                              branch localPath) w in
  logLines after = logLines w \/
  exists (conn : Connection) (n : nat),
    connectionDetails client = Some conn /\
    logLines after
    = logLines w ++ take n (downloadLogLines client conn repository branch) /\
    (forall conn' : Connection,
       BaseUrl conn' = BaseUrl conn ->
       downloadLogLines client conn' repository branch
       = downloadLogLines client conn repository branch).
Proof.
  intros after. subst after.
  assert (Hlines : forall conn conn' : Connection,
             BaseUrl conn' = BaseUrl conn ->
             downloadLogLines client conn' repository branch
             = downloadLogLines client conn repository branch).
  { intros conn conn' Hbase. unfold downloadLogLines. rewrite Hbase.
    reflexivity. }
  unfold DownloadRepository, sendDownloadRepoRequest, world_after, logLines,
    defer, os_Getwd, os_Chdir.
  go_step. download_cases U E client.
  all: rewrite ?omap_app; simpl; rewrite ?app_nil_r.
  all: try (left; reflexivity).
  all: right; eexists; first
    [ exists 1%nat; split; [reflexivity |]; split; [| apply Hlines];
      rewrite <- ?app_assoc; reflexivity
    | exists 2%nat; split; [reflexivity |]; split; [| apply Hlines];
      rewrite <- ?app_assoc; reflexivity
    | exists 3%nat; split; [reflexivity |]; split; [| apply Hlines];
      rewrite <- ?app_assoc; reflexivity ].
Qed.

(* --------------------------------------------------------------------- *)
(** *** One request per call *)
(* --------------------------------------------------------------------- *)

(** A loop whose body leaves the world alone leaves the world alone. *)
Lemma for_each_silent {A S : Type} (body : A -> S -> Go S) :
  (forall x s w, world_after (body x s) w = w) ->
  forall xs s w, world_after (for_each xs body s) w = w.
Proof.
  intros Hbody. induction xs as [|x rest IH]; intros s w.
  - reflexivity.
  - unfold world_after in *. simpl. cbv [mbind Go_bind].
    specialize (Hbody x s w). destruct (body x s w) as [[s'|r] w1].
    + simpl in Hbody. subst w1. apply IH.
    + exact Hbody.
Qed.

Lemma for_range_silent {A S R : Type} (body : A -> S -> Go (S + R)) :
  (forall x s w, world_after (body x s) w = w) ->
  forall xs s w, world_after (for_range xs body s) w = w.
Proof.
  intros Hbody. induction xs as [|x rest IH]; intros s w.
  - reflexivity.
  - unfold world_after in *. simpl. cbv [mbind Go_bind].
    specialize (Hbody x s w). destruct (body x s w) as [[[s'|res]|r] w1];
      simpl in Hbody; subst w1; [apply IH | reflexivity | reflexivity].
Qed.

(** Replaces the world a silent loop ends in by the one it started in. *)
Ltac silent_body :=
  intros; unfold world_after; go_step;
  repeat (match goal with
          | |- context [match ?y with _ => _ end] =>
              match type of y with
              | option _ => destruct y
              end
          end; simpl);
  reflexivity.

Ltac silent_loops :=
  repeat match goal with
         | |- context [for_each ?xs ?body ?s ?w0] =>
             let H := fresh "Hloop" in
             assert (H : world_after (for_each xs body s) w0 = w0)
               by (apply for_each_silent; silent_body);
             unfold world_after in H;
             destruct (for_each xs body s w0) as [[?|?] ?];
             simpl in H; subst; simpl
         end.

(** The loop of [ListPullRequestComments] asks nothing of the outside. *)
Lemma flatten_loop_silent (threads : list GitPullRequestCommentThread)
  (acc : list CommentInfo) (w : World) :
  world_after
    (for_range (R := list CommentInfo * option error) threads
       (fun thread commentInfo =>
          comments ← deref (Thread_Comments thread);
          r ← for_range comments (fun comment commentsAggregator =>
                author ← deref (Comment_Author comment);
                displayName ← deref (DisplayName author);
                id ← deref (Comment_Id comment);
                content ← deref (Comment_Content comment);
                let '(commentsAggregator, err) :=
                  WriteString commentsAggregator
                              (commentLine displayName id content) in
                match err with
                | Some e => mret (inr ([], Some e))
                | None => mret (inl commentsAggregator)
                end) EmptyString;
          match r with
          | inr res => mret (inr res)
          | inl commentsAggregator =>
              threadId ← deref (Thread_Id thread);
              publishedDate ← deref (Thread_PublishedDate thread);
              mret (inl (commentInfo ++
                           [ {| ID := int64_of_int threadId;
                                Created := publishedDate;
                                Content := commentsAggregator |} ]))
          end) acc) w = w.
Proof.
  apply for_range_silent. intros thread commentInfo w0.
  unfold world_after. go_step.
  destruct (Thread_Comments thread) as [comments|]; [| reflexivity].
  match goal with
  | |- context [for_range comments ?body ?s ?w1] =>
      assert (Hinner : world_after (for_range comments body s) w1 = w1)
        by (apply for_range_silent; silent_body);
      unfold world_after in Hinner;
      destruct (for_range comments body s w1) as [[[?|?]|?] ?];
      simpl in Hinner; subst; simpl
  end.
  - destruct (Thread_Id thread); [| reflexivity].
    destruct (Thread_PublishedDate thread); reflexivity.
  - reflexivity.
  - reflexivity.
Qed.

(** X18. Once the SDK client is built, every operation sends the provider
    exactly one request, whatever the provider answers (an error, an empty
    or a full answer, an answer with nil fields): nothing is asked again
    and nothing is asked after the answer.  The history grows by the
    construction of the client, the log line of the operations that log,
    and that request, which names the repository given and the project of
    the connection descriptor.  [TestConnection] builds no client and sends
    the one request for the resource areas. *)
Theorem one_request_per_call (U : vcsutils) (E : Env)
  (client : AzureReposClient) (ctx : Context)
  (owner repository branch sourceBranch targetBranch title description : string)
  (content : string) (pullRequestID : Z)
  (conn : Connection) (gitClient : git_Client) (w : World) :
  connectionDetails client = Some conn ->
  git_NewClient E ctx conn w = (Some gitClient, None) ->
  trace (world_after (TestConnection E client ctx) w)
  = trace w ++ [EvGetResourceAreas (BaseUrl conn)] /\
  trace (world_after (ListRepositories E client ctx) w)
  = trace w ++ [EvNewClient conn;
                EvGetRepositories {| GR_Project := Project (vcsInfo client) |}] /\
  trace (world_after (ListBranches E client ctx owner repository) w)
  = trace w ++ [EvNewClient conn;
                EvGetBranches (getBranchesArgsOf client repository)] /\
  trace (world_after (CreatePullRequest U E client ctx owner repository
                        sourceBranch targetBranch title description) w)
  = trace w ++ [EvNewClient conn;
                EvLog Debug ["creating new pull request:"; title];
                EvCreatePullRequest
                  (createPullRequestArgsOf U client repository sourceBranch
                     targetBranch title description)] /\
  trace (world_after (AddPullRequestComment E client ctx owner repository
                        content pullRequestID) w)
  = trace w ++ [EvNewClient conn;
                EvCreateThread
                  (newThreadOf client repository content pullRequestID)] /\
  trace (world_after (ListPullRequestComments E client ctx owner repository
                        pullRequestID) w)
  = trace w ++ [EvNewClient conn;
                EvGetThreads
                  (getThreadsArgsOf client repository pullRequestID)] /\
  trace (world_after (ListOpenPullRequests U E client ctx owner repository) w)
  = trace w ++ [EvNewClient conn;
                EvLog Debug ["fetching open pull requests in"; repository];
                EvGetPullRequests (getPullRequestsArgsOf client repository)] /\
  trace (world_after (GetLatestCommit U E client ctx owner repository branch) w)
  = trace w ++ [EvNewClient conn;
                EvGetCommits (getCommitsArgsOf client repository branch)].
Proof.
  intros Hconn Hbuild.
  repeat split.
  - unfold TestConnection, world_after. rewrite Hconn. go_step.
    destruct (GetResourceAreas E ctx conn w). reflexivity.
  - unfold ListRepositories, world_after. go_step. rewrite Hconn, Hbuild.
    destruct (git_GetRepositories gitClient _ _ _) as [[repos|] [e|]]; simpl;
      silent_loops; rewrite <- ?app_assoc; reflexivity.
  - unfold ListBranches, world_after. go_step. rewrite Hconn, Hbuild.
    destruct (git_GetBranches gitClient _ _ _) as [[stats|] [e|]]; simpl;
      silent_loops; rewrite <- ?app_assoc; reflexivity.
  - unfold CreatePullRequest, world_after. go_step. rewrite Hconn, Hbuild.
    destruct (git_CreatePullRequest gitClient _ _ _) as [pr err]; simpl.
    rewrite <- ?app_assoc. reflexivity.
  - unfold AddPullRequestComment, world_after. go_step. rewrite Hconn, Hbuild.
    destruct (git_CreateThread gitClient _ _ _) as [thread err]; simpl.
    rewrite <- ?app_assoc. reflexivity.
  - unfold ListPullRequestComments. unfold world_after at 1.
    cbv [mbind Go_bind mret Go_ret extern buildAzureReposClient].
    rewrite Hconn, Hbuild. cbv [deref mret Go_ret].
    destruct (git_GetThreads gitClient _ _ _) as [[threads|] [e|]];
      try (simpl; rewrite <- ?app_assoc; reflexivity).
    cbv [mbind Go_bind mret Go_ret deref].
    match goal with
    | |- context [for_range threads ?body ?acc ?w0] =>
        pose proof (flatten_loop_silent threads acc w0) as Hloop;
        unfold world_after in Hloop;
        change (for_range threads body acc w0) with
          (for_range threads body acc w0) in *
    end.
    match goal with
    | H : (?loop).2 = _ |- _ =>
        match goal with
        | |- context [let (o, w') := ?loop' in _] =>
            change loop' with loop; destruct loop as [[[?|?]|?] ?];
            simpl in H; subst; simpl
        end
    end; rewrite <- ?app_assoc; reflexivity.
  - unfold ListOpenPullRequests, world_after. go_step. rewrite Hconn, Hbuild.
    destruct (git_GetPullRequests gitClient _ _ _) as [[prs|] [e|]]; simpl;
      silent_loops; rewrite <- ?app_assoc; reflexivity.
  - unfold GetLatestCommit, world_after. go_step. rewrite Hconn, Hbuild.
    destruct (git_GetCommits gitClient _ _ _) as [[[|c rest]|] [e|]]; simpl;
      try (rewrite <- ?app_assoc; reflexivity).
    destruct (Commit_Author c); simpl;
      [| rewrite <- ?app_assoc; reflexivity].
    destruct (Commit_Committer c) as [k|]; simpl;
      [| rewrite <- ?app_assoc; reflexivity].
    destruct (User_Date k); simpl; rewrite <- ?app_assoc; reflexivity.
Qed.

Lemma one_request_per_call_witness :
  trace (world_after (ListBranches acceptingEnv sampleClient ctx0 "owner" "repo")
                     world0)
  = [EvNewClient sampleConnection;
     EvGetBranches (getBranchesArgsOf sampleClient "repo")] /\
  trace (world_after (TestConnection acceptingEnv sampleClient ctx0) world0)
  = [EvGetResourceAreas "https://dev.azure.com/org"].
Proof.
  destruct (one_request_per_call sampleUtils acceptingEnv sampleClient ctx0
              "owner" "repo" "main" "feature" "main" "title" "description"
              "content" 7 sampleConnection (cannedClient [] [] []) world0
              eq_refl eq_refl)
    as [Htest [_ [Hbranches _]]].
  split; [exact Hbranches | exact Htest].
Defined.

(* --------------------------------------------------------------------- *)
(** *** DownloadRepository: the first error is the one returned *)
(* --------------------------------------------------------------------- *)


